(** * OpenDocQA front end: the document list and the document viewer

    A shallow embedding of the two stateful React components of the front
    end, [DocumentList] (src/unnamed/part_000, the paginated list) and
    [DocumentViewer] (src/frontend/src/components/DocumentViewer.tsx).

    How a component is read here.  The [useState] cells and the props of a
    component form a record.  An [async] function is cut at its [await]:
    the part before it runs when the function is called (it reads the
    closure of the current render, calls setters and hands a request to
    [fetch]); the part after it runs when the request settles (in these
    components it only calls setters, so it needs nothing of its closure
    but, in the list, the captured [page]).  A [useEffect] runs after the
    first render and after every render in which one of its dependencies
    differs from the previous render.  Setter calls made in one
    continuation are applied together, in order, before the next render
    (React 18 batching). *)

From Stdlib Require Import List String Ascii ZArith NArith QArith Bool Lia.
From Stdlib Require Import DecimalString.
Import ListNotations.

(** ** What [fetch] can answer *)

Module Http.

(** The ways the [try] block of a fetching function can end. *)
Inductive FetchResult (A : Type) : Type :=
| NetworkFailure                                 (* fetch() rejects *)
| HttpError (status : Z) (statusText : string)   (* !response.ok *)
| ParseFailure                                   (* response.json() rejects *)
| HttpOk (data : A).                             (* response.ok, body parsed *)

Arguments NetworkFailure {A}.
Arguments HttpError {A} status statusText.
Arguments ParseFailure {A}.
Arguments HttpOk {A} data.

Definition failed {A} (r : FetchResult A) : bool :=
  match r with HttpOk _ => false | _ => true end.

(** A JavaScript string used as a condition: only the empty one is falsy. *)
Definition truthy (s : string) : bool :=
  match s with EmptyString => false | String _ _ => true end.

(** [headers]: always the content type, the key when one is set. *)
Definition headers (apiKey : string) : list (string * string) :=
  ("Content-Type", "application/json")%string ::
  (if truthy apiKey then [("X-API-Key"%string, apiKey)] else []).

End Http.

(** ** Components as machines

    A component with its requests in flight moves by events; every move
    may hand requests to [fetch]. *)

Module Machine.
Section Machine.
Variables World Event Request : Type.
Variable step : World -> Event -> World * list Request.
Variable enabled : World -> Event -> bool.

(** The world after a trace and the requests issued along it, in order. *)
Fixpoint run (w : World) (tr : list Event) : World * list Request :=
  match tr with
  | [] => (w, [])
  | e :: tr' =>
      let '(w1, rs1) := step w e in
      let '(w2, rs2) := run w1 tr' in
      (w2, rs1 ++ rs2)
  end.

(** Every event of the trace can happen where it happens. *)
Fixpoint feasible (w : World) (tr : list Event) : bool :=
  match tr with
  | [] => true
  | e :: tr' => enabled w e && feasible (fst (step w e)) tr'
  end.
End Machine.
Arguments run {World Event Request} step w tr.
Arguments feasible {World Event Request} step enabled w tr.
End Machine.

(** ** DocumentList: the paginated list *)

Module DocumentList.
Import Http.
Local Open Scope Z_scope.

Record Document : Type := {
  document_id : string;
  filename : string;
  upload_time : string;
  file_size : Z;
  content_type : string;
  processing_complete : bool;
  processing_error : option string
}.

(** The body of [GET /api/documents]: [{ documents: [...] }]. *)
Record DocumentsPage : Type := { page_documents : list Document }.

(** [GET /api/documents?skip=..&limit=..] with its headers. *)
Record Request : Type := {
  skip : Z;
  req_limit : Z;
  req_headers : list (string * string)
}.

(** The prop and the five [useState] cells. *)
Record State : Type := {
  apiKey : string;
  documents : list Document;
  isLoading : bool;
  error : option string;
  page : Z;
  hasMore : bool
}.

Definition setDocuments (d : list Document) (s : State) : State :=
  {| apiKey := apiKey s; documents := d; isLoading := isLoading s;
     error := error s; page := page s; hasMore := hasMore s |}.
Definition setIsLoading (b : bool) (s : State) : State :=
  {| apiKey := apiKey s; documents := documents s; isLoading := b;
     error := error s; page := page s; hasMore := hasMore s |}.
Definition setError (e : option string) (s : State) : State :=
  {| apiKey := apiKey s; documents := documents s; isLoading := isLoading s;
     error := e; page := page s; hasMore := hasMore s |}.
Definition setPage (p : Z) (s : State) : State :=
  {| apiKey := apiKey s; documents := documents s; isLoading := isLoading s;
     error := error s; page := p; hasMore := hasMore s |}.
Definition setHasMore (b : bool) (s : State) : State :=
  {| apiKey := apiKey s; documents := documents s; isLoading := isLoading s;
     error := error s; page := page s; hasMore := b |}.
Definition withApiKey (k : string) (s : State) : State :=
  {| apiKey := k; documents := documents s; isLoading := isLoading s;
     error := error s; page := page s; hasMore := hasMore s |}.

Definition load_error : string :=
  "Failed to load documents. Please try again.".

(** The component writes [const limit = 10]. *)
Definition default_limit : Z := 10.

Section Loader.
(** The page size, a constant of the component. *)
Variable limit : Z.

Definition initial (key : string) : State :=
  {| apiKey := key; documents := []; isLoading := true; error := None;
     page := 1; hasMore := true |}.

(** [fetchDocuments] up to its [await fetch(...)]. *)
Definition fetchDocuments_call (s : State) : State * Request :=
  (setError None (setIsLoading true s),
   {| skip := (page s - 1) * limit; req_limit := limit;
      req_headers := headers (apiKey s) |}).

(** [fetchDocuments] from the settled [fetch] on; [p] is the [page] of
    the render whose closure made the call. *)
Definition fetchDocuments_settle
    (p : Z) (r : FetchResult DocumentsPage) (s : State) : State :=
  setIsLoading false
    match r with
    | HttpOk data =>
        let s1 :=
          if Z.of_nat (List.length (page_documents data)) <? limit
          then setHasMore false s else s in
        if p =? 1
        then setDocuments (page_documents data) s1
        else setDocuments (documents s1 ++ page_documents data) s1
    | _ => setError (Some load_error) s
    end.

(** The component with its requests in flight, each remembered by the
    [page] its closure captured. *)
Record World : Type := { view : State; inflight : list Z }.

Inductive Event : Type :=
| ClickLoadMore                                      (* the Load More button *)
| ApiKeyChanged (k : string)                         (* the prop changes *)
| Settled (p : Z) (r : FetchResult DocumentsPage).   (* a fetch settles *)

Fixpoint remove_one (p : Z) (l : list Z) : list Z :=
  match l with
  | [] => []
  | q :: l' => if q =? p then l' else q :: remove_one p l'
  end.

(** First render, then the effect of [useEffect(..., [page])]. *)
Definition mount (key : string) : World * list Request :=
  let '(s, rq) := fetchDocuments_call (initial key) in
  ({| view := s; inflight := [page s] |}, [rq]).

(** [setPage(prev => prev + 1)] changes [page], so the effect runs
    [fetchDocuments] in the next render; nothing else is a dependency. *)
Definition step (w : World) (e : Event) : World * list Request :=
  match e with
  | ClickLoadMore =>
      let s1 := setPage (page (view w) + 1) (view w) in
      let '(s2, rq) := fetchDocuments_call s1 in
      ({| view := s2; inflight := inflight w ++ [page s1] |}, [rq])
  | ApiKeyChanged k =>
      ({| view := withApiKey k (view w); inflight := inflight w |}, [])
  | Settled p r =>
      ({| view := fetchDocuments_settle p r (view w);
          inflight := remove_one p (inflight w) |}, [])
  end.

(** What can happen in a world: the button is rendered under
    [hasMore && !isLoading] inside the branch taken unless
    [documents.length === 0 && !isLoading]; a fetch settles only if it
    is in flight. *)
Definition enabled (w : World) (e : Event) : bool :=
  match e with
  | ClickLoadMore =>
      negb ((List.length (documents (view w)) =? 0)%nat && negb (isLoading (view w)))
      && (hasMore (view w) && negb (isLoading (view w)))
  | ApiKeyChanged _ => true
  | Settled p _ => existsb (Z.eqb p) (inflight w)
  end.

Definition run : World -> list Event -> World * list Request :=
  Machine.run step.

Definition feasible : World -> list Event -> bool :=
  Machine.feasible step enabled.

(** A session: mount with a key, then a trace of events. *)
Definition session (key : string) (tr : list Event) : World * list Request :=
  let '(w0, rs0) := mount key in
  let '(w, rs) := run w0 tr in
  (w, rs0 ++ rs).

Definition possible (key : string) (tr : list Event) : bool :=
  feasible (fst (mount key)) tr.

(** The pages that arrived, in order of arrival. *)
Fixpoint loaded (tr : list Event) : list (list Document) :=
  match tr with
  | [] => []
  | Settled _ (HttpOk data) :: tr' => page_documents data :: loaded tr'
  | _ :: tr' => loaded tr'
  end.

Definition short (d : list Document) : Prop := Z.of_nat (List.length d) < limit.

(** The page that arrived last, if any did. *)
Fixpoint last_page (h : list (list Document)) : option (list Document) :=
  match h with
  | [] => None
  | d :: h' => match h' with [] => Some d | _ :: _ => last_page h' end
  end.

(** The offsets of pages 1, 2, ..., n. *)
Definition offsets (n : nat) : list Z :=
  map (fun i => Z.of_nat i * limit) (seq 0 n).

(** What every possible session keeps true; [hist] are the pages that
    arrived so far and [rs] the requests issued so far. *)
Record Inv (w : World) (hist : list (list Document)) (rs : list Request) : Prop := {
  inv_docs : documents (view w) = List.concat hist;
  inv_more : hasMore (view w) = false <->
             exists d, last_page hist = Some d /\ short d;
  inv_page : page (view w) = Z.of_nat (List.length rs);
  inv_pos : 1 <= page (view w);
  inv_skip : map skip rs = offsets (List.length rs);
  inv_flight : inflight w = [] \/
               (inflight w = [page (view w)] /\ isLoading (view w) = true /\
                hasMore (view w) = true /\ (page (view w) = 1 -> hist = []))
}.

End Loader.

End DocumentList.

(** ** DocumentViewer: one document and its derived views *)

(** The JSON bodies the viewer receives, one module per interface. *)

Module DocumentInfo.
Record t : Type := {
  document_id : string;
  filename : string;
  upload_time : string;
  file_size : Z;
  content_type : string;
  text_length : option Z;
  has_docling_data : bool;
  processing_complete : bool;
  processing_time : option Q;
  processing_error : option string
}.
End DocumentInfo.

Module Summary.
Record t : Type := {
  document_id : string;
  summary : string;
  processed_with_docling : bool;
  processing_time : Q;
  tokens_used : option Z
}.
End Summary.

Module KeyPoint.
Record t : Type := { point : string; relevance : option Q }.
End KeyPoint.

Module KeyPointsResponse.
Record t : Type := {
  document_id : string;
  key_points : list KeyPoint.t;
  processed_with_docling : bool;
  processing_time : Q;
  tokens_used : option Z
}.
End KeyPointsResponse.

Module QueryResult.
(** The body of [POST /api/document/{id}/query]: [{ response: ... }]. *)
Record t : Type := { response : string }.
End QueryResult.

(** The text typed into the query box, as UTF-16 code units, with
    [String.prototype.trim]. *)

Module JsText.
Local Open Scope N_scope.

Definition text : Type := list N.

(** WhiteSpace and LineTerminator of ECMAScript: TAB, LF, VT, FF, CR, SP,
    NBSP, U+1680, U+2000..U+200A, LS, PS, U+202F, U+205F, U+3000, BOM. *)
Definition isWhiteSpace (c : N) : bool :=
  existsb (N.eqb c)
    [9; 10; 11; 12; 13; 32; 160; 5760; 8232; 8233; 8239; 8287; 12288; 65279]
  || ((8192 <=? c) && (c <=? 8202)).

Fixpoint trimStart (s : text) : text :=
  match s with
  | [] => []
  | c :: s' => if isWhiteSpace c then trimStart s' else s
  end.

Definition trimEnd (s : text) : text := rev (trimStart (rev s)).

Definition trim (s : text) : text := trimEnd (trimStart s).

(** A string used as a condition. *)
Definition truthy (s : text) : bool :=
  match s with [] => false | _ :: _ => true end.

End JsText.

Module DocumentViewer.
Import Http JsText.

Inductive Tab : Type := summaryTab | keyPointsTab | queryTab.

Definition Tab_eqb (a b : Tab) : bool :=
  match a, b with
  | summaryTab, summaryTab | keyPointsTab, keyPointsTab | queryTab, queryTab => true
  | _, _ => false
  end.

(** The requests of the viewer:
    [GET /api/document/{id}], [GET /api/document/{id}/summary?max_length=..],
    [GET /api/document/{id}/key_points?max_points=..] and
    [POST /api/document/{id}/query] with body [{ query }]. *)
Inductive Request : Type :=
| GetDocument (id : string) (hdrs : list (string * string))
| GetSummary (id : string) (max_length : Z) (hdrs : list (string * string))
| GetKeyPoints (id : string) (max_points : Z) (hdrs : list (string * string))
| PostQuery (id : string) (hdrs : list (string * string)) (body : text).

Definition Request_eq_dec (a b : Request) : {a = b} + {a <> b}.
Proof.
  pose proof string_dec. pose proof Z.eq_dec. pose proof N.eq_dec.
  repeat decide equality.
Defined.

Definition Request_eqb (a b : Request) : bool :=
  if Request_eq_dec a b then true else false.

(** Summary, key points and query answer are the derived artifacts. *)
Definition derived (rq : Request) : bool :=
  match rq with GetDocument _ _ => false | _ => true end.

Definition is_summary (rq : Request) : bool :=
  match rq with GetSummary _ _ _ => true | _ => false end.
Definition is_keyPoints (rq : Request) : bool :=
  match rq with GetKeyPoints _ _ _ => true | _ => false end.
Definition is_query (rq : Request) : bool :=
  match rq with PostQuery _ _ _ => true | _ => false end.

Definition request_id (rq : Request) : string :=
  match rq with
  | GetDocument id _ | GetSummary id _ _ | GetKeyPoints id _ _ | PostQuery id _ _ => id
  end.

(** The route parameter, the prop and the [useState] cells. *)
Record State : Type := {
  documentId : option string;
  apiKey : string;
  activeTab : Tab;
  documentInfo : option DocumentInfo.t;
  summary : option Summary.t;
  keyPoints : option KeyPointsResponse.t;
  query : text;
  queryResponse : option string;
  isLoading : bool;
  isQuerying : bool;
  error : option string
}.

Definition withDocumentId (v : option string) (s : State) : State :=
  {| documentId := v; apiKey := apiKey s; activeTab := activeTab s;
     documentInfo := documentInfo s; summary := summary s;
     keyPoints := keyPoints s; query := query s;
     queryResponse := queryResponse s; isLoading := isLoading s;
     isQuerying := isQuerying s; error := error s |}.
Definition withApiKey (v : string) (s : State) : State :=
  {| documentId := documentId s; apiKey := v; activeTab := activeTab s;
     documentInfo := documentInfo s; summary := summary s;
     keyPoints := keyPoints s; query := query s;
     queryResponse := queryResponse s; isLoading := isLoading s;
     isQuerying := isQuerying s; error := error s |}.
Definition setActiveTab (v : Tab) (s : State) : State :=
  {| documentId := documentId s; apiKey := apiKey s; activeTab := v;
     documentInfo := documentInfo s; summary := summary s;
     keyPoints := keyPoints s; query := query s;
     queryResponse := queryResponse s; isLoading := isLoading s;
     isQuerying := isQuerying s; error := error s |}.
Definition setDocumentInfo (v : option DocumentInfo.t) (s : State) : State :=
  {| documentId := documentId s; apiKey := apiKey s; activeTab := activeTab s;
     documentInfo := v; summary := summary s;
     keyPoints := keyPoints s; query := query s;
     queryResponse := queryResponse s; isLoading := isLoading s;
     isQuerying := isQuerying s; error := error s |}.
Definition setSummary (v : option Summary.t) (s : State) : State :=
  {| documentId := documentId s; apiKey := apiKey s; activeTab := activeTab s;
     documentInfo := documentInfo s; summary := v;
     keyPoints := keyPoints s; query := query s;
     queryResponse := queryResponse s; isLoading := isLoading s;
     isQuerying := isQuerying s; error := error s |}.
Definition setKeyPoints (v : option KeyPointsResponse.t) (s : State) : State :=
  {| documentId := documentId s; apiKey := apiKey s; activeTab := activeTab s;
     documentInfo := documentInfo s; summary := summary s;
     keyPoints := v; query := query s;
     queryResponse := queryResponse s; isLoading := isLoading s;
     isQuerying := isQuerying s; error := error s |}.
Definition setQuery (v : text) (s : State) : State :=
  {| documentId := documentId s; apiKey := apiKey s; activeTab := activeTab s;
     documentInfo := documentInfo s; summary := summary s;
     keyPoints := keyPoints s; query := v;
     queryResponse := queryResponse s; isLoading := isLoading s;
     isQuerying := isQuerying s; error := error s |}.
Definition setQueryResponse (v : option string) (s : State) : State :=
  {| documentId := documentId s; apiKey := apiKey s; activeTab := activeTab s;
     documentInfo := documentInfo s; summary := summary s;
     keyPoints := keyPoints s; query := query s;
     queryResponse := v; isLoading := isLoading s;
     isQuerying := isQuerying s; error := error s |}.
Definition setIsLoading (v : bool) (s : State) : State :=
  {| documentId := documentId s; apiKey := apiKey s; activeTab := activeTab s;
     documentInfo := documentInfo s; summary := summary s;
     keyPoints := keyPoints s; query := query s;
     queryResponse := queryResponse s; isLoading := v;
     isQuerying := isQuerying s; error := error s |}.
Definition setIsQuerying (v : bool) (s : State) : State :=
  {| documentId := documentId s; apiKey := apiKey s; activeTab := activeTab s;
     documentInfo := documentInfo s; summary := summary s;
     keyPoints := keyPoints s; query := query s;
     queryResponse := queryResponse s; isLoading := isLoading s;
     isQuerying := v; error := error s |}.
Definition setError (v : option string) (s : State) : State :=
  {| documentId := documentId s; apiKey := apiKey s; activeTab := activeTab s;
     documentInfo := documentInfo s; summary := summary s;
     keyPoints := keyPoints s; query := query s;
     queryResponse := queryResponse s; isLoading := isLoading s;
     isQuerying := isQuerying s; error := v |}.

Definition initial (id : option string) (key : string) : State :=
  {| documentId := id; apiKey := key; activeTab := summaryTab;
     documentInfo := None; summary := None; keyPoints := None;
     query := []; queryResponse := None; isLoading := true;
     isQuerying := false; error := None |}.

(** [documentId] as a condition: [undefined] and the empty string are falsy. *)
Definition present (id : option string) : option string :=
  match id with
  | Some i => if Http.truthy i then Some i else None
  | None => None
  end.

(** [documentInfo?.processing_complete] as a condition. *)
Definition complete (info : option DocumentInfo.t) : bool :=
  match info with
  | Some d => DocumentInfo.processing_complete d
  | None => false
  end.

(** The guard of the three derived fetches holds. *)
Definition eligible (s : State) : bool :=
  match present (documentId s) with Some _ => complete (documentInfo s) | None => false end.

Definition info_error : string := "Failed to load document information.".
Definition summary_error : string := "Failed to load document summary.".
Definition keyPoints_error : string := "Failed to load document key points.".
Definition query_error : string := "Failed to query the document.".

(** *** The fetching functions up to their [await fetch(...)]

    [c] is the state of the render whose closure the function reads, [s]
    the state its setter calls are applied to. *)

Definition fetchDocumentInfo (c s : State) : State * list Request :=
  match present (documentId c) with
  | None => (s, [])
  | Some id =>
      (setError None (setIsLoading true s),
       [GetDocument id (headers (apiKey c))])
  end.

Definition fetchSummary (c s : State) : State * list Request :=
  match present (documentId c) with
  | None => (s, [])
  | Some id =>
      if negb (complete (documentInfo c)) then (s, [])
      else (setError None (setIsLoading true s),
            [GetSummary id 1000 (headers (apiKey c))])
  end.

Definition fetchKeyPoints (c s : State) : State * list Request :=
  match present (documentId c) with
  | None => (s, [])
  | Some id =>
      if negb (complete (documentInfo c)) then (s, [])
      else (setError None (setIsLoading true s),
            [GetKeyPoints id 10 (headers (apiKey c))])
  end.

Definition handleQuerySubmit (c s : State) : State * list Request :=
  if negb (JsText.truthy (trim (query c))) then (s, [])
  else
    match present (documentId c) with
    | None => (s, [])
    | Some id =>
        if negb (complete (documentInfo c)) then (s, [])
        else (setError None (setIsQuerying true s),
              [PostQuery id (headers (apiKey c)) (trim (query c))])
    end.

(** *** The same functions from the settled [fetch] on *)

Definition fetchDocumentInfo_settle
    (r : FetchResult DocumentInfo.t) (s : State) : State :=
  setIsLoading false
    match r with
    | HttpOk data => setDocumentInfo (Some data) s
    | _ => setError (Some info_error) s
    end.

Definition fetchSummary_settle
    (r : FetchResult Summary.t) (s : State) : State :=
  setIsLoading false
    match r with
    | HttpOk data => setSummary (Some data) s
    | _ => setError (Some summary_error) s
    end.

Definition fetchKeyPoints_settle
    (r : FetchResult KeyPointsResponse.t) (s : State) : State :=
  setIsLoading false
    match r with
    | HttpOk data => setKeyPoints (Some data) s
    | _ => setError (Some keyPoints_error) s
    end.

Definition handleQuerySubmit_settle
    (r : FetchResult QueryResult.t) (s : State) : State :=
  setIsQuerying false
    match r with
    | HttpOk data => setQueryResponse (Some (QueryResult.response data)) s
    | _ => setError (Some query_error) s
    end.

(** *** Effects

    [useEffect(() => { fetchDocumentInfo() }, [fetchDocumentInfo])] and
    the effect that fetches for the active tab, with dependencies
    [activeTab, documentInfo, fetchSummary, fetchKeyPoints].  The three
    callbacks are made by [useCallback]: [fetchDocumentInfo] is a new
    function when [documentId] or [apiKey] changed, the other two when
    [documentId], [documentInfo] or [apiKey] changed. *)

Definition tabEffect (c s : State) : State * list Request :=
  if complete (documentInfo c) then
    match activeTab c with
    | summaryTab => fetchSummary c s
    | keyPointsTab => fetchKeyPoints c s
    | queryTab => (s, [])
    end
  else (s, []).

Definition option_string_eqb (a b : option string) : bool :=
  match a, b with
  | Some x, Some y => String.eqb x y
  | None, None => true
  | _, _ => false
  end.

Definition same_props (prev c : State) : bool :=
  option_string_eqb (documentId prev) (documentId c)
  && String.eqb (apiKey prev) (apiKey c).

(** The effects after the render of [c] that follows the render of
    [prev]; [fresh] tells that [documentInfo] holds another object than
    before (a newly parsed body is never the object held before).  Both
    effects read the closure of this one render. *)
Definition commit (prev : State) (fresh : bool) (c : State)
  : State * list Request :=
  let moved := negb (same_props prev c) in
  let '(s1, r1) := if moved then fetchDocumentInfo c c else (c, []) in
  let '(s2, r2) :=
    if moved || fresh || negb (Tab_eqb (activeTab prev) (activeTab c))
    then tabEffect c s1 else (s1, []) in
  (s2, r1 ++ r2).

(** *** Events *)

Inductive Reply : Type :=
| DocumentReply (r : FetchResult DocumentInfo.t)
| SummaryReply (r : FetchResult Summary.t)
| KeyPointsReply (r : FetchResult KeyPointsResponse.t)
| QueryReply (r : FetchResult QueryResult.t).

Inductive Event : Type :=
| Navigate (id : option string)        (* the route parameter changes *)
| ApiKeyChanged (k : string)           (* the prop changes *)
| ClickTab (t : Tab)                   (* onClick of a tab button *)
| TypeQuery (q : text)                 (* onChange of the query box *)
| SubmitQuery                          (* onSubmit of the query form *)
| Settled (rq : Request) (rp : Reply). (* a fetch settles *)

(** The continuation a reply resumes, and whether it stored a new
    [documentInfo]. *)
Definition settle (rp : Reply) (s : State) : State * bool :=
  match rp with
  | DocumentReply r => (fetchDocumentInfo_settle r s, negb (failed r))
  | SummaryReply r => (fetchSummary_settle r s, false)
  | KeyPointsReply r => (fetchKeyPoints_settle r s, false)
  | QueryReply r => (handleQuerySubmit_settle r s, false)
  end.

(** One event on the component. *)
Definition react (s : State) (e : Event) : State * list Request :=
  match e with
  | Navigate id => commit s false (withDocumentId id s)
  | ApiKeyChanged k => commit s false (withApiKey k s)
  | ClickTab t => commit s false (setActiveTab t s)
  | TypeQuery q => commit s false (setQuery q s)
  | SubmitQuery => handleQuerySubmit s s
  | Settled _ rp => let '(s1, fresh) := settle rp s in commit s fresh s1
  end.

(** The component with its requests in flight. *)
Record World : Type := { view : State; inflight : list Request }.

Fixpoint remove_one (rq : Request) (l : list Request) : list Request :=
  match l with
  | [] => []
  | x :: l' => if Request_eqb x rq then l' else x :: remove_one rq l'
  end.

Definition step (w : World) (e : Event) : World * list Request :=
  let '(s, rs) := react (view w) e in
  let rest :=
    match e with
    | Settled rq _ => remove_one rq (inflight w)
    | _ => inflight w
    end in
  ({| view := s; inflight := rest ++ rs |}, rs).

(** First render and its effects: both run. *)
Definition mount (id : option string) (key : string) : World * list Request :=
  let c := initial id key in
  let '(s1, r1) := fetchDocumentInfo c c in
  let '(s2, r2) := tabEffect c s1 in
  ({| view := s2; inflight := r1 ++ r2 |}, r1 ++ r2).

(** The reply is one the service gives to the request: of its kind,
    and a parsed body names the document that was asked for. *)
Definition answers (rq : Request) (rp : Reply) : bool :=
  match rq, rp with
  | GetDocument id _, DocumentReply r =>
      match r with HttpOk d => String.eqb (DocumentInfo.document_id d) id | _ => true end
  | GetSummary id _ _, SummaryReply r =>
      match r with HttpOk d => String.eqb (Summary.document_id d) id | _ => true end
  | GetKeyPoints id _ _, KeyPointsReply r =>
      match r with HttpOk d => String.eqb (KeyPointsResponse.document_id d) id | _ => true end
  | PostQuery _ _ _, QueryReply _ => true
  | _, _ => false
  end.

(** What can happen in a world.  The tab bar is rendered under
    [documentInfo?.processing_complete], the query form under
    [activeTab === 'query'] inside it; the box is disabled while
    [isQuerying], the button while [isQuerying || !query.trim()]; a
    fetch settles only if it is in flight. *)
Definition enabled (w : World) (e : Event) : bool :=
  let s := view w in
  match e with
  | Navigate _ => true
  | ApiKeyChanged _ => true
  | ClickTab _ => complete (documentInfo s)
  | TypeQuery _ =>
      complete (documentInfo s) && Tab_eqb (activeTab s) queryTab
      && negb (isQuerying s)
  | SubmitQuery =>
      complete (documentInfo s) && Tab_eqb (activeTab s) queryTab
      && negb (isQuerying s || negb (JsText.truthy (trim (query s))))
  | Settled rq rp => existsb (Request_eqb rq) (inflight w) && answers rq rp
  end.

Definition run : World -> list Event -> World * list Request :=
  Machine.run step.

Definition feasible : World -> list Event -> bool :=
  Machine.feasible step enabled.

(** A session: mount on a route with a key, then a trace of events. *)
Definition session (id : option string) (key : string) (tr : list Event)
  : World * list Request :=
  let '(w0, rs0) := mount id key in
  let '(w, rs) := run w0 tr in
  (w, rs0 ++ rs).

Definition possible (id : option string) (key : string) (tr : list Event) : bool :=
  feasible (fst (mount id key)) tr.

(** *** Reading traces and requests *)

Definition count (f : Request -> bool) (rs : list Request) : nat :=
  List.length (filter f rs).

(** The document stays the same and its metadata is not loaded again:
    neither the route nor the key changes. *)
Definition held_fixed (tr : list Event) : bool :=
  forallb (fun e => match e with
                    | Navigate _ | ApiKeyChanged _ => false
                    | _ => true
                    end) tr.

(** The summary of the last summary fetch that succeeded, if any. *)
Fixpoint last_summary (acc : option Summary.t) (tr : list Event) : option Summary.t :=
  match tr with
  | [] => acc
  | Settled _ (SummaryReply (HttpOk d)) :: tr' => last_summary (Some d) tr'
  | _ :: tr' => last_summary acc tr'
  end.

(** The reply of a derived fetch, with the tab it belongs to. *)
Definition tab_of_reply (rp : Reply) : option Tab :=
  match rp with
  | DocumentReply _ => None
  | SummaryReply _ => Some summaryTab
  | KeyPointsReply _ => Some keyPointsTab
  | QueryReply _ => Some queryTab
  end.

Definition reply_failed (rp : Reply) : bool :=
  match rp with
  | DocumentReply r => failed r
  | SummaryReply r => failed r
  | KeyPointsReply r => failed r
  | QueryReply r => failed r
  end.

(** The message each tab's [catch] sets. *)
Definition tab_error (t : Tab) : string :=
  match t with
  | summaryTab => summary_error
  | keyPointsTab => keyPoints_error
  | queryTab => query_error
  end.

(** The cells a call before its [await] never writes. *)
Definition kept (s s' : State) : Prop :=
  documentId s' = documentId s /\ apiKey s' = apiKey s
  /\ activeTab s' = activeTab s /\ documentInfo s' = documentInfo s
  /\ summary s' = summary s /\ keyPoints s' = keyPoints s
  /\ query s' = query s /\ queryResponse s' = queryResponse s.

(** The request the effect sends when tab [t] becomes the active one. *)
Definition tab_request (t : Tab) (id : string) (key : string) : list Request :=
  match t with
  | summaryTab => [GetSummary id 1000 (headers key)]
  | keyPointsTab => [GetKeyPoints id 10 (headers key)]
  | queryTab => []
  end.

End DocumentViewer.

Module LoaderExamples.
Import Http DocumentList.
Local Open Scope string_scope.

Definition doc (id : string) : Document :=
  {| document_id := id; filename := id; upload_time := "2024-01-01T00:00:00";
     file_size := 2048; content_type := "application/pdf";
     processing_complete := true; processing_error := None |}.

(** With pages of two: a full page, a click, a page of one. *)
Definition two_pages : list Event :=
  [ Settled 1 (HttpOk {| page_documents := [doc "a"; doc "b"] |});
    ClickLoadMore;
    Settled 2 (HttpOk {| page_documents := [doc "c"] |}) ].

(** The list after these two pages: it has seen a short page. *)
Definition exhausted : World :=
  fst (session 2 "key-1" two_pages).

End LoaderExamples.

Module ViewerExamples.
Import Http JsText DocumentViewer.
Local Open Scope string_scope.

Definition info (id : string) (done : bool) : DocumentInfo.t :=
  {| DocumentInfo.document_id := id;
     DocumentInfo.filename := "report.pdf";
     DocumentInfo.upload_time := "2024-01-01T00:00:00";
     DocumentInfo.file_size := 2048%Z;
     DocumentInfo.content_type := "application/pdf";
     DocumentInfo.text_length := Some 1200%Z;
     DocumentInfo.has_docling_data := true;
     DocumentInfo.processing_complete := done;
     DocumentInfo.processing_time := Some (3 # 2)%Q;
     DocumentInfo.processing_error := None |}.

Definition summary_of (id : string) : Summary.t :=
  {| Summary.document_id := id;
     Summary.summary := "A report.";
     Summary.processed_with_docling := true;
     Summary.processing_time := (1 # 2)%Q;
     Summary.tokens_used := Some 40%Z |}.

Definition keyPoints_of (id : string) : KeyPointsResponse.t :=
  {| KeyPointsResponse.document_id := id;
     KeyPointsResponse.key_points :=
       [{| KeyPoint.point := "It reports."; KeyPoint.relevance := None |}];
     KeyPointsResponse.processed_with_docling := true;
     KeyPointsResponse.processing_time := (1 # 2)%Q;
     KeyPointsResponse.tokens_used := None |}.

Definition keyed : list (string * string) := headers "key-1".

(** The document "doc-1" is loaded and its summary arrives. *)
Definition opened : list Event :=
  [ Settled (GetDocument "doc-1" keyed) (DocumentReply (HttpOk (info "doc-1" true)));
    Settled (GetSummary "doc-1" 1000 keyed) (SummaryReply (HttpOk (summary_of "doc-1"))) ].

(** Then the user goes to the key points and back to the summary. *)
Definition back_and_forth : list Event :=
  opened ++
  [ ClickTab keyPointsTab;
    Settled (GetKeyPoints "doc-1" 10 keyed) (KeyPointsReply (HttpOk (keyPoints_of "doc-1")));
    ClickTab summaryTab ].

(** Or the route changes to "doc-2" ... *)
Definition moved_on : list Event :=
  opened ++ [ Navigate (Some "doc-2") ].

(** ... and the metadata of "doc-2" cannot be fetched. *)
Definition moved_on_and_failed : list Event :=
  moved_on ++ [ Settled (GetDocument "doc-2" keyed) (DocumentReply NetworkFailure) ].

Definition opened_view : State :=
  view (fst (session (Some "doc-1") "key-1" opened)).

Definition opened_world : World :=
  fst (session (Some "doc-1") "key-1" opened).

(** A document that is still being processed. *)
Definition waiting_view : State :=
  view (fst (session (Some "doc-1") "key-1"
               [ Settled (GetDocument "doc-1" keyed)
                   (DocumentReply (HttpOk (info "doc-1" false))) ])).

(** " why? " typed into the query box of the opened document. *)
Definition asking_view : State :=
  setQuery [32; 119; 104; 121; 63; 32]%N (setActiveTab queryTab opened_view).

End ViewerExamples.

(** ** States of the list worth a name *)

Module LoaderStates.
Import Http DocumentList.

(** The spinner and the request in flight go together: either nothing is
    in flight and the list is not loading, or one request is, for the
    current page, and the list is loading. *)
Definition Paired (w : World) : Prop :=
  (inflight w = [] /\ isLoading (view w) = false)
  \/ (inflight w = [page (view w)] /\ isLoading (view w) = true).

(** Nothing is in flight and the Load More button is not rendered. *)
Definition Quiet (w : World) : Prop :=
  inflight w = [] /\ isLoading (view w) = false
  /\ (hasMore (view w) = false \/ documents (view w) = []).

End LoaderStates.

(** ** Reading the viewer's requests and traces further *)

Module ViewerReadings.
Import Http JsText DocumentViewer.

Definition request_headers (rq : Request) : list (string * string) :=
  match rq with
  | GetDocument _ h | GetSummary _ _ h | GetKeyPoints _ _ h | PostQuery _ h _ => h
  end.

(** The key points of the last key-points fetch that succeeded, if any. *)
Fixpoint last_keyPoints (acc : option KeyPointsResponse.t) (tr : list Event)
  : option KeyPointsResponse.t :=
  match tr with
  | [] => acc
  | Settled _ (KeyPointsReply (HttpOk d)) :: tr' => last_keyPoints (Some d) tr'
  | _ :: tr' => last_keyPoints acc tr'
  end.

(** The answer of the last query that succeeded, if any. *)
Fixpoint last_answer (acc : option string) (tr : list Event) : option string :=
  match tr with
  | [] => acc
  | Settled _ (QueryReply (HttpOk d)) :: tr' =>
      last_answer (Some (QueryResult.response d)) tr'
  | _ :: tr' => last_answer acc tr'
  end.

(** [isQuerying] and the query in flight go together. *)
Definition QueryPaired (w : World) : Prop :=
  count is_query (inflight w) = if isQuerying (view w) then 1%nat else 0%nat.

(** The text does not begin and does not end with white space. *)
Definition trimmed (q : text) : Prop :=
  match q with
  | [] => True
  | c :: _ => isWhiteSpace c = false /\ isWhiteSpace (last q c) = false
  end.

End ViewerReadings.

(** ** What the components show *)

(** [formatFileSize], written twice in the source (list and viewer) with
    the same body.  A size is an integer from 0 to below 2^53, which a
    double holds exactly: there the quotient by 1024 or 1024 * 1024 is
    exact in a double, [toFixed(1)] prints the tenth nearest to the
    exact value, the larger one on a tie, and the conversion of a number
    to a string gives its decimal digits.  Outside this range the
    functions below say nothing of the source. *)

Module Format.
Local Open Scope string_scope.
Local Open Scope Z_scope.

(** The decimal digits of an integer, as [String(n)] gives them. *)
Definition decimal (n : Z) : string := NilZero.string_of_int (Z.to_int n).

(** The integer [n] with [n / 10] nearest to [num / den]. *)
Definition tenths (num den : Z) : Z := (20 * num + den) / (2 * den).

(** [(num / den).toFixed(1)] for [0 <= num] and [0 < den]. *)
Definition toFixed1 (num den : Z) : string :=
  decimal (tenths num den / 10) ++ "." ++ decimal (tenths num den mod 10).

Definition formatFileSize (bytes : Z) : string :=
  if bytes <? 1024 then decimal bytes ++ " B"
  else if bytes <? 1024 * 1024 then toFixed1 bytes 1024 ++ " KB"
  else toFixed1 bytes (1024 * 1024) ++ " MB".

(** The size cell of a row of the list. *)
Definition list_size_text (doc : DocumentList.Document) : string :=
  formatFileSize (DocumentList.file_size doc).

(** The size in the header of the viewer:
    [documentInfo?.file_size ? formatFileSize(...) : 'Unknown']. *)
Definition viewer_size_text (info : option DocumentInfo.t) : string :=
  match info with
  | Some d =>
      if DocumentInfo.file_size d =? 0 then "Unknown"
      else formatFileSize (DocumentInfo.file_size d)
  | None => "Unknown"
  end.

Fixpoint last_char (s : string) : option ascii :=
  match s with
  | EmptyString => None
  | String c s' => match s' with EmptyString => Some c | String _ _ => last_char s' end
  end.

End Format.

(** What the viewer renders, as far as it depends on the state: the two
    early returns, then the page with the tab panel under
    [documentInfo?.processing_complete]. *)

Module ViewerScreen.
Import Http JsText DocumentViewer.

(** A string or null used as a condition, with the string when truthy. *)
Definition shown (o : option string) : option string :=
  match o with
  | Some m => if Http.truthy m then Some m else None
  | None => None
  end.

Inductive Panel : Type :=
| Spinner
| ErrorBox (m : string)
| SummaryView (sm : Summary.t)
| NoSummary
| KeyPointsView (kp : KeyPointsResponse.t)
| NoKeyPoints
| QueryForm (busy : bool) (err : option string) (answer : option string) (hint : bool).

Inductive Screen : Type :=
| LoadingScreen
| ErrorScreen (m : string)
| DocumentPage (info : option DocumentInfo.t) (tabs : option Panel).

Definition is_some {A : Type} (o : option A) : bool :=
  match o with Some _ => true | None => false end.

Definition panel (s : State) : Panel :=
  match activeTab s with
  | summaryTab =>
      if isLoading s then Spinner
      else match shown (error s) with
           | Some m => ErrorBox m
           | None =>
               match summary s with
               | Some sm => SummaryView sm
               | None => NoSummary
               end
           end
  | keyPointsTab =>
      if isLoading s then Spinner
      else match shown (error s) with
           | Some m => ErrorBox m
           | None =>
               match keyPoints s with
               | Some kp =>
                   if (0 <? List.length (KeyPointsResponse.key_points kp))%nat
                   then KeyPointsView kp else NoKeyPoints
               | None => NoKeyPoints
               end
           end
  | queryTab =>
      QueryForm (isQuerying s) (shown (error s)) (shown (queryResponse s))
        (negb (is_some (shown (queryResponse s)))
         && negb (is_some (shown (error s))) && negb (isQuerying s))
  end.

Definition render (s : State) : Screen :=
  if isLoading s && negb (is_some (documentInfo s)) then LoadingScreen
  else
    match shown (error s), documentInfo s with
    | Some m, None => ErrorScreen m
    | _, _ =>
        DocumentPage (documentInfo s)
          (if complete (documentInfo s) then Some (panel s) else None)
    end.

(** No event of the trace changes the route. *)
Definition stays (tr : list Event) : bool :=
  forallb (fun e => match e with Navigate _ => false | _ => true end) tr.

End ViewerScreen.

(** ** DocumentUpload: choosing a file and sending it *)

Module DocumentUpload.
Import Http.
Local Open Scope string_scope.
Local Open Scope Z_scope.

(** What the component reads of a [File]. *)
Record File : Type := { name : string; size : Z; type : string }.

(** [JSON.parse(xhr.responseText)], as far as the handler looks at it: it
    throws, it gives [null] (reading a property of it throws), or it
    gives a value of which [document_id] and [detail] are read. *)
Inductive Json : Type :=
| JsonError
| JsonNull
| JsonObject (document_id : option string) (detail : option string).

(** [POST /api/upload] with the file as form data. *)
Record Request : Type := {
  upload_file : File;
  upload_headers : list (string * string)
}.

(** The prop and the four [useState] cells. *)
Record State : Type := {
  apiKey : string;
  file : option File;
  isUploading : bool;
  uploadProgress : Z;
  error : option string
}.

Definition withApiKey (v : string) (s : State) : State :=
  {| apiKey := v; file := file s; isUploading := isUploading s;
     uploadProgress := uploadProgress s; error := error s |}.
Definition setFile (v : option File) (s : State) : State :=
  {| apiKey := apiKey s; file := v; isUploading := isUploading s;
     uploadProgress := uploadProgress s; error := error s |}.
Definition setIsUploading (v : bool) (s : State) : State :=
  {| apiKey := apiKey s; file := file s; isUploading := v;
     uploadProgress := uploadProgress s; error := error s |}.
Definition setUploadProgress (v : Z) (s : State) : State :=
  {| apiKey := apiKey s; file := file s; isUploading := isUploading s;
     uploadProgress := v; error := error s |}.
Definition setError (v : option string) (s : State) : State :=
  {| apiKey := apiKey s; file := file s; isUploading := isUploading s;
     uploadProgress := uploadProgress s; error := v |}.

Definition initial (key : string) : State :=
  {| apiKey := key; file := None; isUploading := false;
     uploadProgress := 0; error := None |}.

Definition allowedTypes : list string :=
  [ "application/pdf"; "text/plain"; "text/csv"; "application/vnd.ms-excel";
    "application/vnd.openxmlformats-officedocument.spreadsheetml.sheet" ].

Definition maxSize : Z := 16 * 1024 * 1024.

Definition no_file_error : string := "Please select a file to upload".
Definition type_error : string :=
  "Invalid file type. Please upload PDF, TXT, CSV, or Excel files.".
Definition size_error : string := "File size exceeds the 16MB limit.".
Definition send_error : string :=
  "An error occurred during upload. Please try again.".
Definition upload_failed : string := "Upload failed".
Definition upload_failed_retry : string := "Upload failed. Please try again.".

(** [handleFileChange] and [handleDrop]: the first file of the list. *)
Definition handleFileChange (files : list File) (s : State) : State :=
  match files with
  | f :: _ => setError None (setFile (Some f) s)
  | [] => s
  end.

Definition handleDrop (files : list File) (s : State) : State :=
  match files with
  | f :: _ => setError None (setFile (Some f) s)
  | [] => s
  end.

(** [handleUpload] up to [xhr.send]; [throws] tells that building or
    sending the request threw inside the [try]. *)
Definition handleUpload (throws : bool) (s : State) : State * list Request :=
  match file s with
  | None => (setError (Some no_file_error) s, [])
  | Some f =>
      if negb (existsb (String.eqb (type f)) allowedTypes)
      then (setError (Some type_error) s, [])
      else if size f >? maxSize
      then (setError (Some size_error) s, [])
      else
        let s1 := setError None (setIsUploading true s) in
        if throws
        then (setError (Some send_error) (setIsUploading false s1), [])
        else (s1,
              [{| upload_file := f;
                  upload_headers :=
                    if Http.truthy (apiKey s)
                    then [("X-API-Key", apiKey s)] else [] |}])
  end.

(** The listener of [progress]; [progress] is the value of
    [Math.round((event.loaded / event.total) * 100)]. *)
Definition onProgress (lengthComputable : bool) (progress : Z) (s : State) : State :=
  if lengthComputable then setUploadProgress progress s else s.

(** [onreadystatechange] at [readyState === 4]: the state after it and
    the path navigated to, if any. *)
Definition onDone (status : Z) (body : Json) (s : State) : State * option string :=
  let s1 := setIsUploading false s in
  if (200 <=? status) && (status <? 300)
  then
    match body with
    | JsonObject (Some id) _ => (s1, Some ("/document/" ++ id))
    | JsonObject None _ => (s1, Some "/document/undefined")
    | _ => (s1, None)
    end
  else
    match body with
    | JsonObject _ (Some d) =>
        (setError (Some (if Http.truthy d then d else upload_failed)) s1, None)
    | JsonObject _ None => (setError (Some upload_failed) s1, None)
    | _ => (setError (Some upload_failed_retry) s1, None)
    end.

(** The page with its uploads in flight and the path it left for. *)
Record World : Type := {
  view : State;
  inflight : list Request;
  navigated : option string
}.

Inductive Event : Type :=
| FileChosen (files : list File)
| FileDropped (files : list File)
| ApiKeyChanged (k : string)
| ClickUpload (throws : bool)
| Progress (lengthComputable : bool) (progress : Z)
| Done (status : Z) (body : Json).

Definition mount (key : string) : World :=
  {| view := initial key; inflight := []; navigated := None |}.

Definition step (w : World) (e : Event) : World * list Request :=
  match e with
  | FileChosen files =>
      ({| view := handleFileChange files (view w); inflight := inflight w;
          navigated := navigated w |}, [])
  | FileDropped files =>
      ({| view := handleDrop files (view w); inflight := inflight w;
          navigated := navigated w |}, [])
  | ApiKeyChanged k =>
      ({| view := withApiKey k (view w); inflight := inflight w;
          navigated := navigated w |}, [])
  | ClickUpload throws =>
      let '(s, rs) := handleUpload throws (view w) in
      ({| view := s; inflight := inflight w ++ rs; navigated := navigated w |}, rs)
  | Progress c v =>
      ({| view := onProgress c v (view w); inflight := inflight w;
          navigated := navigated w |}, [])
  | Done status body =>
      let '(s, path) := onDone status body (view w) in
      ({| view := s; inflight := tl (inflight w); navigated := path |}, [])
  end.

(** What can happen: nothing once the page was left; the button is
    disabled under [!file || isUploading]; the request's events come
    while it is in flight. *)
Definition enabled (w : World) (e : Event) : bool :=
  match navigated w with
  | Some _ => false
  | None =>
      match e with
      | FileChosen _ | FileDropped _ | ApiKeyChanged _ => true
      | ClickUpload _ =>
          match file (view w) with
          | Some _ => negb (isUploading (view w))
          | None => false
          end
      | Progress _ _ | Done _ _ =>
          match inflight w with [] => false | _ :: _ => true end
      end
  end.

Definition run : World -> list Event -> World * list Request :=
  Machine.run step.

Definition feasible : World -> list Event -> bool :=
  Machine.feasible step enabled.

(** The file passes the two checks of [handleUpload]. *)
Definition acceptable (f : File) : Prop :=
  In (type f) allowedTypes /\ size f <= 16777216.

(** [isUploading] and the upload in flight go together. *)
Definition Paired (w : World) : Prop :=
  (inflight w = [] /\ isUploading (view w) = false)
  \/ (exists rq, inflight w = [rq] /\ isUploading (view w) = true
                 /\ navigated w = None).

End DocumentUpload.

(** ** App and Navbar: the key and where it is kept *)

Module Settings.
Import Http.
Local Open Scope string_scope.

(** [localStorage], as the entries it holds. *)
Definition Storage : Type := list (string * string).

Definition getItem (k : string) (st : Storage) : option string :=
  match find (fun p => String.eqb (fst p) k) st with
  | Some p => Some (snd p)
  | None => None
  end.

Definition removeItem (k : string) (st : Storage) : Storage :=
  filter (fun p => negb (String.eqb (fst p) k)) st.

Definition setItem (k v : string) (st : Storage) : Storage :=
  (k, v) :: removeItem k st.

Definition storage_key : string := "docling-api-key".

(** [localStorage.getItem('docling-api-key') || ''], the initial [apiKey]
    of [App]. *)
Definition loadKey (st : Storage) : string :=
  match getItem storage_key st with
  | Some v => if Http.truthy v then v else ""
  | None => ""
  end.

(** The effect of [App] on [apiKey]. *)
Definition persist (apiKey : string) (st : Storage) : Storage :=
  if Http.truthy apiKey then setItem storage_key apiKey st
  else removeItem storage_key st.

(** [App] with its [Navbar] and the storage. *)
Record World : Type := {
  apiKey : string;
  storage : Storage;
  isSettingsOpen : bool;
  apiKeyInput : string
}.

Inductive Event : Type :=
| ToggleSettings          (* the Settings button *)
| TypeKey (v : string)    (* onChange of the key box *)
| Cancel
| Save.                   (* handleSaveApiKey *)

(** First render of [App] and [Navbar], then the effect. *)
Definition mount (st : Storage) : World :=
  {| apiKey := loadKey st; storage := persist (loadKey st) st;
     isSettingsOpen := false; apiKeyInput := loadKey st |}.

Definition step (w : World) (e : Event) : World :=
  match e with
  | ToggleSettings =>
      {| apiKey := apiKey w; storage := storage w;
         isSettingsOpen := negb (isSettingsOpen w); apiKeyInput := apiKeyInput w |}
  | TypeKey v =>
      {| apiKey := apiKey w; storage := storage w;
         isSettingsOpen := isSettingsOpen w; apiKeyInput := v |}
  | Cancel =>
      {| apiKey := apiKey w; storage := storage w;
         isSettingsOpen := false; apiKeyInput := apiKeyInput w |}
  | Save =>
      {| apiKey := apiKeyInput w;
         storage :=
           if String.eqb (apiKey w) (apiKeyInput w) then storage w
           else persist (apiKeyInput w) (storage w);
         isSettingsOpen := false; apiKeyInput := apiKeyInput w |}
  end.

(** The panel with the box and its two buttons is rendered under
    [isSettingsOpen]. *)
Definition enabled (w : World) (e : Event) : bool :=
  match e with
  | ToggleSettings => true
  | TypeKey _ | Cancel | Save => isSettingsOpen w
  end.

Definition run (w : World) (tr : list Event) : World := fold_left step tr w.

(** What the storage holds for the key in effect, and for the rest. *)
Definition Kept (st : Storage) (w : World) : Prop :=
  getItem storage_key (storage w) =
    (if Http.truthy (apiKey w) then Some (apiKey w) else None)
  /\ forall k, k <> storage_key -> getItem k (storage w) = getItem k st.

End Settings.

(** ** Further examples *)

Module MoreExamples.
Import Http JsText.
Local Open Scope string_scope.

(** The viewer of "doc-1" on the query tab, " why? " typed and submitted. *)
Definition asked : list DocumentViewer.Event :=
  (ViewerExamples.opened ++
   [ DocumentViewer.ClickTab DocumentViewer.queryTab;
     DocumentViewer.TypeQuery [32; 119; 104; 121; 63; 32]%N;
     DocumentViewer.SubmitQuery ])%list.

(** An empty document, in the viewer and in the list. *)
Definition empty_info : DocumentInfo.t :=
  {| DocumentInfo.document_id := "doc-0";
     DocumentInfo.filename := "empty.txt";
     DocumentInfo.upload_time := "2024-01-01T00:00:00";
     DocumentInfo.file_size := 0%Z;
     DocumentInfo.content_type := "text/plain";
     DocumentInfo.text_length := None;
     DocumentInfo.has_docling_data := false;
     DocumentInfo.processing_complete := true;
     DocumentInfo.processing_time := None;
     DocumentInfo.processing_error := None |}.

Definition empty_doc : DocumentList.Document :=
  {| DocumentList.document_id := "doc-0";
     DocumentList.filename := "empty.txt";
     DocumentList.upload_time := "2024-01-01T00:00:00";
     DocumentList.file_size := 0%Z;
     DocumentList.content_type := "text/plain";
     DocumentList.processing_complete := true;
     DocumentList.processing_error := None |}.

(** A file of exactly the largest size allowed. *)
Definition report : DocumentUpload.File :=
  {| DocumentUpload.name := "report.pdf";
     DocumentUpload.size := 16777216%Z;
     DocumentUpload.type := "application/pdf" |}.

(** The upload page with the report chosen, and with it being sent. *)
Definition chosen : DocumentUpload.State :=
  DocumentUpload.handleFileChange [report] (DocumentUpload.initial "key-1").

Definition sending : DocumentUpload.World :=
  fst (DocumentUpload.run (DocumentUpload.mount "key-1")
         [ DocumentUpload.FileChosen [report]; DocumentUpload.ClickUpload false ]).

(** A storage with an entry of another application. *)
Definition some_storage : Settings.Storage := [("theme", "dark")].

Definition typed_and_saved : list Settings.Event :=
  [ Settings.ToggleSettings; Settings.TypeKey "key-1"; Settings.Save ].

End MoreExamples.

(** ** The message a panel shows *)

Module ViewerMessages.
Import Http JsText DocumentViewer ViewerScreen.
Local Open Scope string_scope.

(** The error message a tab panel displays, if it displays one. *)
Definition panel_message (p : Panel) : option string :=
  match p with
  | ErrorBox m => Some m
  | QueryForm _ err _ _ => err
  | _ => None
  end.

(** The metadata of "doc-1" arrives; then its summary cannot be fetched;
    then the user opens the query tab. *)
Definition summary_failed : list Event :=
  [ Settled (GetDocument "doc-1" ViewerExamples.keyed)
      (DocumentReply (HttpOk (ViewerExamples.info "doc-1" true))) ].

Definition then_query_tab : list Event := [ ClickTab queryTab ].

End ViewerMessages.

(** * Traces *)

Section MachineFacts.
Variables World Event Request : Type.
Variable step : World -> Event -> World * list Request.
Variable enabled : World -> Event -> bool.

Lemma machine_run_cons (w : World) (e : Event) (tr : list Event) :
  Machine.run step w (e :: tr) =
  (fst (Machine.run step (fst (step w e)) tr),
   snd (step w e) ++ snd (Machine.run step (fst (step w e)) tr)).
Proof.
  simpl. destruct (step w e) as [w1 rs1].
  simpl. destruct (Machine.run step w1 tr) as [w2 rs2]. reflexivity.
Qed.

Lemma machine_run_app (tr1 tr2 : list Event) :
  forall w : World,
    Machine.run step w (tr1 ++ tr2) =
    (fst (Machine.run step (fst (Machine.run step w tr1)) tr2),
     snd (Machine.run step w tr1) ++
     snd (Machine.run step (fst (Machine.run step w tr1)) tr2)).
Proof.
  induction tr1 as [|e tr1 IH]; intros w.
  - simpl. destruct (Machine.run step w tr2). reflexivity.
  - rewrite <- app_comm_cons, !machine_run_cons, IH. cbn [fst snd].
    rewrite app_assoc. reflexivity.
Qed.

Lemma machine_feasible_cons (w : World) (e : Event) (tr : list Event) :
  Machine.feasible step enabled w (e :: tr) =
  enabled w e && Machine.feasible step enabled (fst (step w e)) tr.
Proof. reflexivity. Qed.

End MachineFacts.

(** * The paginated list: what holds of it *)

Section LoaderFacts.
Import Http DocumentList.
Local Open Scope Z_scope.

Variable limit : Z.

Lemma last_page_snoc (h : list (list Document)) (d : list Document) :
  last_page (h ++ [d]) = Some d.
Proof.
  induction h as [|x h IH]; simpl; [reflexivity|].
  destruct (h ++ [d]) eqn:E; [destruct h; discriminate|exact IH].
Qed.

Lemma loaded_cons (e : Event) (tr : list Event) :
  loaded (e :: tr) = loaded [e] ++ loaded tr.
Proof. destruct e as [| |p [| | |data]]; reflexivity. Qed.

Lemma offsets_snoc (n : nat) :
  offsets limit (S n) = offsets limit n ++ [Z.of_nat n * limit].
Proof. unfold offsets. rewrite seq_S, map_app. reflexivity. Qed.

Lemma Inv_mount (key : string) :
  Inv limit (fst (mount limit key)) [] (snd (mount limit key)).
Proof.
  split; simpl.
  - reflexivity.
  - split; [discriminate|]. intros [d [H _]]. discriminate.
  - reflexivity.
  - lia.
  - reflexivity.
  - right. repeat split; reflexivity.
Qed.

Lemma settle_ok_documents (p : Z) (data : DocumentsPage) (s : State) :
  documents (fetchDocuments_settle limit p (HttpOk data) s) =
  if p =? 1 then page_documents data else documents s ++ page_documents data.
Proof.
  unfold fetchDocuments_settle.
  destruct (Z.of_nat (List.length (page_documents data)) <? limit);
    destruct (p =? 1); reflexivity.
Qed.

Lemma settle_ok_hasMore (p : Z) (data : DocumentsPage) (s : State) :
  hasMore (fetchDocuments_settle limit p (HttpOk data) s) =
  if Z.of_nat (List.length (page_documents data)) <? limit then false else hasMore s.
Proof.
  unfold fetchDocuments_settle.
  destruct (Z.of_nat (List.length (page_documents data)) <? limit);
    destruct (p =? 1); reflexivity.
Qed.

Lemma settle_page (p : Z) (r : FetchResult DocumentsPage) (s : State) :
  page (fetchDocuments_settle limit p r s) = page s.
Proof.
  unfold fetchDocuments_settle.
  destruct r as [| st tx | | data]; try reflexivity.
  destruct (Z.of_nat (List.length (page_documents data)) <? limit);
    destruct (p =? 1); reflexivity.
Qed.

Lemma settle_failed (p : Z) (r : FetchResult DocumentsPage) (s : State) :
  failed r = true ->
  fetchDocuments_settle limit p r s =
  setIsLoading false (setError (Some load_error) s).
Proof. destruct r; simpl; intros H; try reflexivity; discriminate. Qed.

Lemma Inv_step (w : World) (hist : list (list Document)) (rs : list Request) (e : Event) :
  Inv limit w hist rs -> enabled w e = true ->
  Inv limit (fst (step limit w e)) (hist ++ loaded [e]) (rs ++ snd (step limit w e)).
Proof.
  intros [Hd Hm Hp Hpos Hs Hf] He.
  destruct e as [| k' | q r]; simpl in *.
  - (* the button: nothing is in flight, one request leaves *)
    rewrite app_nil_r.
    apply andb_prop in He as [_ He]. apply andb_prop in He as [Hh Hl].
    apply negb_true_iff in Hl.
    destruct Hf as [Hf | [_ [Hf _]]]; [|congruence].
    split; simpl.
    + exact Hd.
    + exact Hm.
    + rewrite length_app; simpl. lia.
    + lia.
    + rewrite map_app, length_app, Hs; simpl.
      replace (List.length rs + 1)%nat with (S (List.length rs)) by lia.
      rewrite offsets_snoc. do 2 f_equal. lia.
    + right. rewrite Hf. repeat split; try reflexivity; try assumption.
      intros H1. lia.
  - rewrite !app_nil_r. split; simpl; auto.
  - (* a fetch settles: it is the one in flight *)
    rewrite app_nil_r.
    destruct Hf as [Hf | [Hf [Hl [Hh H1]]]]; [rewrite Hf in He; discriminate|].
    rewrite Hf in He |- *. simpl in He. rewrite orb_false_r in He.
    apply Z.eqb_eq in He. subst q. simpl. rewrite Z.eqb_refl.
    destruct (failed r) eqn:Er.
    + (* the fetch failed: only the message and the spinner change *)
      rewrite settle_failed by exact Er.
      replace (hist ++ _) with hist
        by (destruct r; try discriminate; rewrite app_nil_r; reflexivity).
      split; simpl; auto.
    + destruct r as [| st tx | | data]; try discriminate.
      split.
      * simpl view. rewrite settle_ok_documents, concat_app. simpl.
        rewrite app_nil_r.
        destruct (page (view w) =? 1) eqn:E1.
        -- apply Z.eqb_eq in E1. rewrite (H1 E1). reflexivity.
        -- rewrite Hd. reflexivity.
      * simpl view. rewrite settle_ok_hasMore, last_page_snoc.
        destruct (Z.of_nat (List.length (page_documents data)) <? limit) eqn:E.
        -- split; [|reflexivity]. intros _. eexists. split; [reflexivity|].
           apply Z.ltb_lt. exact E.
        -- split; [congruence|]. intros [d0 [H0 Hsh]]. injection H0 as <-.
           apply Z.ltb_lt in Hsh. congruence.
      * simpl view. rewrite settle_page. exact Hp.
      * simpl view. rewrite settle_page. exact Hpos.
      * exact Hs.
      * left. reflexivity.
Qed.

Lemma run_cons (w : World) (e : Event) (tr : list Event) :
  run limit w (e :: tr) =
  (fst (run limit (fst (step limit w e)) tr),
   snd (step limit w e) ++ snd (run limit (fst (step limit w e)) tr)).
Proof. apply machine_run_cons. Qed.

Lemma Inv_run (tr : list Event) :
  forall (w : World) (hist : list (list Document)) (rs : list Request),
    Inv limit w hist rs -> feasible limit w tr = true ->
    Inv limit (fst (run limit w tr)) (hist ++ loaded tr) (rs ++ snd (run limit w tr)).
Proof.
  induction tr as [|e tr IH]; intros w hist rs HI Hf.
  - simpl. rewrite !app_nil_r. exact HI.
  - unfold feasible in Hf. rewrite machine_feasible_cons in Hf.
    apply andb_prop in Hf as [He Hf].
    pose proof (Inv_step _ _ _ _ HI He) as H1.
    specialize (IH _ _ _ H1 Hf).
    rewrite loaded_cons, run_cons. cbn [fst snd].
    rewrite !app_assoc. exact IH.
Qed.

Lemma Inv_session (key : string) (tr : list Event) :
  possible limit key tr = true ->
  Inv limit (fst (session limit key tr)) (loaded tr) (snd (session limit key tr)).
Proof.
  intros Hp. unfold possible in Hp.
  pose proof (Inv_run tr _ _ _ (Inv_mount key) Hp) as H.
  unfold session. destruct (mount limit key) as [w0 rs0].
  cbn [fst snd] in H.
  destruct (run limit w0 tr) as [w rs] eqn:Er. exact H.
Qed.

(** C3.  In every possible session of the list, whatever the page size,
    the accumulated [documents] are the concatenation of the pages that
    arrived, in order of arrival, nothing dropped, reordered or
    deduplicated; the requests of the session ask for the offsets of
    pages 1, 2, ... in this order; a page fetched as page 1 replaces the
    list and a page fetched under any other number is appended to its
    end. *)
Theorem accumulated_list_is_concatenation :
  forall (key : string) (tr : list Event),
    possible limit key tr = true ->
    documents (view (fst (session limit key tr))) = List.concat (loaded tr)
    /\ map skip (snd (session limit key tr)) =
       offsets limit (List.length (snd (session limit key tr)))
    /\ (forall (data : DocumentsPage) (s : State),
           documents (fetchDocuments_settle limit 1 (HttpOk data) s) =
           page_documents data)
    /\ (forall (p : Z) (data : DocumentsPage) (s : State),
           p <> 1 ->
           documents (fetchDocuments_settle limit p (HttpOk data) s) =
           documents s ++ page_documents data).
Proof.
  intros key tr Hp.
  destruct (Inv_session key tr Hp) as [Hd _ _ _ Hs _].
  split; [|split; [|split]].
  - exact Hd.
  - exact Hs.
  - intros data s. rewrite settle_ok_documents. reflexivity.
  - intros p data s Hne. rewrite settle_ok_documents.
    destruct (p =? 1) eqn:E; [apply Z.eqb_eq in E; contradiction|reflexivity].
Qed.

(** C4.  [hasMore] starts as [true], and in every possible session it is
    [false] exactly when a page has arrived and the page that arrived
    last had fewer than [limit] entries. *)
Theorem hasMore_false_iff_last_page_short :
  forall (key : string) (tr : list Event),
    possible limit key tr = true ->
    hasMore (view (fst (mount limit key))) = true
    /\ (hasMore (view (fst (session limit key tr))) = false <->
        exists d : list Document,
          last_page (loaded tr) = Some d /\ short limit d).
Proof.
  intros key tr Hp. split; [reflexivity|].
  destruct (Inv_session key tr Hp) as [_ Hm _ _ _ _]. exact Hm.
Qed.

(** C5.  A page load that ends in a network failure, a non-success
    status or an unreadable body sets the message
    "Failed to load documents. Please try again." and leaves the
    accumulated list and [hasMore] as they were; it sends nothing. *)
Theorem failed_load_keeps_list_and_hasMore :
  forall (w : World) (p : Z) (r : FetchResult DocumentsPage),
    failed r = true ->
    error (view (fst (step limit w (Settled p r)))) =
      Some "Failed to load documents. Please try again."%string
    /\ documents (view (fst (step limit w (Settled p r)))) = documents (view w)
    /\ hasMore (view (fst (step limit w (Settled p r)))) = hasMore (view w)
    /\ snd (step limit w (Settled p r)) = [].
Proof.
  intros w p r Hr. cbn [step fst snd view].
  rewrite settle_failed by exact Hr.
  repeat split.
Qed.

Lemma step_keeps_exhausted (w : World) (e : Event) :
  hasMore (view w) = false -> hasMore (view (fst (step limit w e))) = false.
Proof.
  intros H. destruct e as [| k | p r]; cbn [step fst view]; try exact H.
  destruct (failed r) eqn:Er.
  - rewrite settle_failed by exact Er. exact H.
  - destruct r as [| st tx | | data]; try discriminate.
    rewrite settle_ok_hasMore, H.
    destruct (Z.of_nat (List.length (page_documents data)) <? limit); reflexivity.
Qed.

(** C10.  [hasMore] is [true] at mount, and once it is [false] it stays
    [false] through any further events of the component: clicks, key
    changes, loads that succeed and loads that fail. *)
Theorem hasMore_never_returns_to_true :
  forall (key : string) (w : World) (tr : list Event),
    hasMore (view w) = false ->
    hasMore (view (fst (mount limit key))) = true
    /\ hasMore (view (fst (run limit w tr))) = false.
Proof.
  intros key w tr H. split; [reflexivity|].
  revert w H. induction tr as [|e tr IH]; intros w H; [exact H|].
  rewrite run_cons. cbn [fst]. apply IH. apply step_keeps_exhausted. exact H.
Qed.

End LoaderFacts.

Lemma accumulated_list_is_concatenation_witness :
  DocumentList.possible 2 "key-1" LoaderExamples.two_pages = true
  /\ DocumentList.documents
       (DocumentList.view (fst (DocumentList.session 2 "key-1" LoaderExamples.two_pages)))
     = [LoaderExamples.doc "a"; LoaderExamples.doc "b"; LoaderExamples.doc "c"].
Proof.
  split; [reflexivity|].
  exact (proj1 (accumulated_list_is_concatenation 2 "key-1" LoaderExamples.two_pages eq_refl)).
Defined.

Lemma hasMore_false_iff_last_page_short_witness :
  DocumentList.possible 2 "key-1" LoaderExamples.two_pages = true
  /\ exists d : list DocumentList.Document,
       DocumentList.last_page (DocumentList.loaded LoaderExamples.two_pages) = Some d
       /\ DocumentList.short 2 d.
Proof.
  split; [reflexivity|].
  apply (proj2 (hasMore_false_iff_last_page_short 2 "key-1" LoaderExamples.two_pages eq_refl)).
  reflexivity.
Defined.

Lemma failed_load_keeps_list_and_hasMore_witness :
  Http.failed (Http.HttpError (A := DocumentList.DocumentsPage) 500 "Internal Server Error") = true
  /\ DocumentList.documents
       (DocumentList.view
          (fst (DocumentList.step 2 LoaderExamples.exhausted
                  (DocumentList.Settled 3 (Http.HttpError 500 "Internal Server Error")))))
     = DocumentList.documents (DocumentList.view LoaderExamples.exhausted).
Proof.
  split; [reflexivity|].
  exact (proj1 (proj2 (failed_load_keeps_list_and_hasMore 2 LoaderExamples.exhausted 3
                         (Http.HttpError 500 "Internal Server Error") eq_refl))).
Defined.

Lemma hasMore_never_returns_to_true_witness :
  DocumentList.hasMore (DocumentList.view LoaderExamples.exhausted) = false
  /\ DocumentList.hasMore
       (DocumentList.view
          (fst (DocumentList.run 2 LoaderExamples.exhausted
                  [DocumentList.ClickLoadMore;
                   DocumentList.Settled 3
                     (Http.HttpOk
                        {| DocumentList.page_documents :=
                             [LoaderExamples.doc "d"; LoaderExamples.doc "e"] |})])))
     = false.
Proof.
  split; [reflexivity|].
  exact (proj2 (hasMore_never_returns_to_true 2 "key-1" LoaderExamples.exhausted _ eq_refl)).
Defined.

(** * The document viewer: what holds of it *)

Section ViewerFacts.
Import Http JsText DocumentViewer.

(** ** [trim] *)

Lemma trimStart_nil_iff (q : text) :
  trimStart q = [] <-> forallb isWhiteSpace q = true.
Proof.
  induction q as [|c q IH]; simpl; [tauto|].
  destruct (isWhiteSpace c); simpl; [exact IH|].
  split; discriminate.
Qed.

Lemma trimStart_head (q : text) :
  match trimStart q with
  | [] => True
  | c :: _ => isWhiteSpace c = false
  end.
Proof.
  induction q as [|c q IH]; simpl; [exact I|].
  destruct (isWhiteSpace c) eqn:E; [exact IH|exact E].
Qed.

Lemma forallb_rev {A : Type} (f : A -> bool) (l : list A) :
  forallb f (rev l) = forallb f l.
Proof.
  induction l as [|a l IH]; simpl; [reflexivity|].
  rewrite forallb_app, IH. simpl. rewrite andb_true_r. apply andb_comm.
Qed.

Lemma trim_nil_iff (q : text) :
  trim q = [] <-> forallb isWhiteSpace q = true.
Proof.
  unfold trim, trimEnd. rewrite <- trimStart_nil_iff.
  split; intros H.
  - assert (H1 : trimStart (rev (trimStart q)) = []).
    { apply (f_equal (@rev N)) in H. rewrite rev_involutive in H. exact H. }
    apply trimStart_nil_iff in H1. rewrite forallb_rev in H1.
    pose proof (trimStart_head q) as Hh.
    destruct (trimStart q) as [|c r]; [reflexivity|].
    simpl in H1. rewrite Hh in H1. discriminate.
  - rewrite H. reflexivity.
Qed.

(** ** What the calls and the effects leave alone *)

Ltac guards :=
  repeat match goal with
         | |- context [match present ?x with _ => _ end] =>
             destruct (present x) eqn:?
         | |- context [match activeTab ?c with _ => _ end] =>
             destruct (activeTab c) eqn:?
         | |- context [if ?b then _ else _] => destruct b eqn:?
         end.

Ltac members rq :=
  repeat match goal with
         | H : _ \/ _ |- _ => destruct H
         | H : False |- _ => destruct H
         | H : _ = rq |- _ => subst rq
         end.

Lemma kept_refl (s : State) : kept s s.
Proof. repeat split. Qed.

Lemma commit_kept (prev : State) (fresh : bool) (c : State) :
  kept c (fst (commit prev fresh c)).
Proof.
  unfold commit, tabEffect, fetchDocumentInfo, fetchSummary, fetchKeyPoints.
  guards; repeat split.
Qed.

Lemma handleQuerySubmit_kept (s : State) :
  kept s (fst (handleQuerySubmit s s)).
Proof. unfold handleQuerySubmit. guards; repeat split. Qed.

Lemma kept_eligible (s s' : State) : kept s s' -> eligible s' = eligible s.
Proof.
  intros [H1 [_ [_ [H4 _]]]]. unfold eligible. rewrite H1, H4. reflexivity.
Qed.

(** ** What the effects send *)

Lemma commit_derived (prev : State) (fresh : bool) (c : State) (rq : Request) :
  In rq (snd (commit prev fresh c)) -> derived rq = true ->
  eligible c = true /\ present (documentId c) = Some (request_id rq)
  /\ is_query rq = false.
Proof.
  unfold commit, tabEffect, fetchDocumentInfo, fetchSummary, fetchKeyPoints, eligible.
  guards; simpl; intros Hin Hd; members rq;
    simpl in *; try discriminate; try congruence; auto.
Qed.

Lemma option_string_eqb_refl (a : option string) : option_string_eqb a a = true.
Proof. destruct a; simpl; [apply String.eqb_refl|reflexivity]. Qed.

Lemma Tab_eqb_refl (t : Tab) : Tab_eqb t t = true.
Proof. destruct t; reflexivity. Qed.

Lemma Tab_eqb_eq (a b : Tab) : Tab_eqb a b = true <-> a = b.
Proof. destruct a, b; simpl; split; intros H; try reflexivity; discriminate. Qed.

(** A render in which no dependency changed runs no effect. *)
Lemma commit_idle (prev c : State) :
  documentId c = documentId prev -> apiKey c = apiKey prev ->
  activeTab c = activeTab prev ->
  commit prev false c = (c, []).
Proof.
  intros H1 H2 H3. unfold commit, same_props.
  rewrite H1, H2, H3, option_string_eqb_refl, String.eqb_refl, Tab_eqb_refl.
  reflexivity.
Qed.

Lemma react_settled (s : State) (rq : Request) (rp : Reply) :
  react s (Settled rq rp) = commit s (snd (settle rp s)) (fst (settle rp s)).
Proof. unfold react. destruct (settle rp s). reflexivity. Qed.

(** A reply of a derived fetch resumes a continuation that changes no
    dependency of an effect. *)
Lemma react_settled_derived (s : State) (rq : Request) (rp : Reply) (t : Tab) :
  tab_of_reply rp = Some t ->
  react s (Settled rq rp) = (fst (settle rp s), []).
Proof.
  intros Ht. rewrite react_settled.
  destruct rp as [r | r | r | r]; try discriminate;
    cbn [settle fst snd]; apply commit_idle; destruct r; reflexivity.
Qed.

Lemma react_derived (s : State) (e : Event) (rq : Request) :
  In rq (snd (react s e)) -> derived rq = true ->
  exists c : State,
    kept c (fst (react s e)) /\ eligible c = true
    /\ present (documentId c) = Some (request_id rq).
Proof.
  intros Hin Hd.
  assert (Hc : forall prev fresh c,
             In rq (snd (commit prev fresh c)) ->
             exists c0, kept c0 (fst (commit prev fresh c)) /\ eligible c0 = true
                        /\ present (documentId c0) = Some (request_id rq)).
  { intros prev fresh c H. exists c.
    destruct (commit_derived prev fresh c rq H Hd) as [He [Hp _]].
    split; [apply commit_kept|]. split; assumption. }
  destruct e as [id | k | t | q | | rq0 rp].
  - apply Hc. exact Hin.
  - apply Hc. exact Hin.
  - apply Hc. exact Hin.
  - apply Hc. exact Hin.
  - exists s. split; [apply handleQuerySubmit_kept|].
    revert Hin. cbn [react]. unfold handleQuerySubmit, eligible.
    guards; simpl; intros Hin; members rq; simpl; auto.
    split; [|reflexivity]. apply negb_false_iff. assumption.
  - rewrite react_settled in Hin |- *. apply Hc. exact Hin.
Qed.

(** C1.  Each of [fetchSummary], [fetchKeyPoints] and
    [handleQuerySubmit] checks, when it is called, that an identifier is
    present and that the stored [documentInfo] reports
    [processing_complete]; when the check fails the call sends nothing
    and changes nothing, whatever the active tab.  Hence every summary,
    key-points or query request that any event makes the viewer send, in
    any state, is sent for the present identifier while the stored
    [documentInfo] reports [processing_complete]; and the mount sends no
    such request. *)
Theorem derived_fetch_guarded :
  forall (c s : State) (e : Event) (rq : Request)
         (id : option string) (key : string),
    (eligible c = false ->
       fetchSummary c s = (s, []) /\ fetchKeyPoints c s = (s, [])
       /\ handleQuerySubmit c s = (s, []))
    /\ (In rq (snd (react s e)) -> derived rq = true ->
        complete (documentInfo (fst (react s e))) = true
        /\ present (documentId (fst (react s e))) = Some (request_id rq))
    /\ (In rq (snd (mount id key)) -> derived rq = false).
Proof.
  intros c s e rq id key. split; [|split].
  - unfold eligible, fetchSummary, fetchKeyPoints, handleQuerySubmit.
    intros H. destruct (present (documentId c)).
    + rewrite H. simpl. split; [|split]; try reflexivity.
      destruct (negb (JsText.truthy (trim (query c)))); reflexivity.
    + split; [|split]; try reflexivity.
      destruct (negb (JsText.truthy (trim (query c)))); reflexivity.
  - intros Hin Hd.
    destruct (react_derived s e rq Hin Hd) as [c0 [Hk [He Hp]]].
    destruct Hk as [H1 [_ [_ [H4 _]]]]. rewrite H1, H4.
    unfold eligible in He. rewrite Hp in He. split; assumption.
  - unfold mount, fetchDocumentInfo, tabEffect. simpl.
    destruct (present id); simpl; intros H; members rq; reflexivity.
Qed.

(** C9.  A query text is blank (empty or made of white space only)
    exactly when it trims to the empty string; submitting such a text
    sends nothing and changes nothing.  A query request is sent by no
    event but a submission, and then the trimmed text is not empty, the
    guard holds, and the request carries the trimmed text. *)
Theorem blank_query_is_not_sent :
  forall (c s : State) (e : Event) (rq : Request),
    (forallb isWhiteSpace (query c) = true <-> trim (query c) = [])
    /\ (trim (query c) = [] ->
        handleQuerySubmit c s = (s, []) /\ react c SubmitQuery = (c, []))
    /\ (In rq (snd (react s e)) -> is_query rq = true ->
        e = SubmitQuery /\ trim (query s) <> [] /\ eligible s = true
        /\ exists id : string,
             present (documentId s) = Some id
             /\ rq = PostQuery id (headers (apiKey s)) (trim (query s))).
Proof.
  intros c s e rq. split; [|split].
  - symmetry. apply trim_nil_iff.
  - intros H. cbn [react]. unfold handleQuerySubmit. rewrite H. split; reflexivity.
  - intros Hin Hq.
    assert (Hc : forall prev fresh c0, In rq (snd (commit prev fresh c0)) -> False).
    { intros prev fresh c0 H.
      assert (Hd : derived rq = true) by (destruct rq; try discriminate; reflexivity).
      destruct (commit_derived prev fresh c0 rq H Hd) as [_ [_ Hn]]. congruence. }
    destruct e as [id | k | t | q | | rq0 rp];
      try (exfalso; eapply Hc; exact Hin).
    + split; [reflexivity|].
      revert Hin. cbn [react]. unfold handleQuerySubmit, eligible.
      destruct (trim (query s)) as [|n l] eqn:Et; simpl; [intros []|].
      destruct (present (documentId s)) as [i|]; simpl; [|intros []].
      destruct (complete (documentInfo s)); simpl; [|intros []].
      intros [H | []]. subst rq.
      split; [discriminate|]. split; [reflexivity|].
      exists i. split; reflexivity.
    + exfalso. rewrite react_settled in Hin. eapply Hc. exact Hin.
Qed.

(** ** Metadata *)

Lemma react_document_reply (s : State) (rq : Request) (r : FetchResult DocumentInfo.t) :
  documentInfo (fst (react s (Settled rq (DocumentReply r)))) =
  match r with HttpOk data => Some data | _ => documentInfo s end.
Proof.
  rewrite react_settled. cbn [settle fst snd].
  destruct (commit_kept s (negb (failed r)) (fetchDocumentInfo_settle r s))
    as [_ [_ [_ [H _]]]].
  rewrite H. destruct r; reflexivity.
Qed.

(** C6, as the code has it.  When a metadata fetch succeeds, the body
    replaces the stored [documentInfo] as a whole.  When it fails, the
    stored [documentInfo] stays what it was, the message
    "Failed to load document information." is set and nothing is sent;
    so it stays null when the first fetch after the mount fails. *)
Theorem metadata_fetch_replaces_or_keeps :
  forall (s : State) (rq : Request) (r : FetchResult DocumentInfo.t)
         (id : option string) (key : string),
    (forall data : DocumentInfo.t,
        r = HttpOk data ->
        documentInfo (fst (react s (Settled rq (DocumentReply r)))) = Some data)
    /\ (failed r = true ->
        documentInfo (fst (react s (Settled rq (DocumentReply r)))) = documentInfo s
        /\ error (fst (react s (Settled rq (DocumentReply r)))) =
           Some "Failed to load document information."%string
        /\ snd (react s (Settled rq (DocumentReply r))) = []
        /\ documentInfo
             (view (fst (session id key [Settled rq (DocumentReply r)]))) = None).
Proof.
  intros s rq r id key. split.
  - intros data ->. apply react_document_reply.
  - intros Hf. split; [|split; [|split]].
    + rewrite react_document_reply. destruct r; try reflexivity; discriminate.
    + rewrite react_settled. cbn [settle fst snd]. rewrite Hf. cbn [negb].
      rewrite commit_idle by (destruct r; reflexivity).
      destruct r; try reflexivity; discriminate.
    + rewrite react_settled. cbn [settle fst snd]. rewrite Hf. cbn [negb].
      rewrite commit_idle by (destruct r; reflexivity). reflexivity.
    + unfold session, run. destruct (mount id key) as [w0 rs0] eqn:Em.
      rewrite machine_run_cons. cbn [Machine.run fst].
      unfold step. destruct (react (view w0) (Settled rq (DocumentReply r))) eqn:Er.
      cbn [fst view].
      change s0 with (fst (s0, l)). rewrite <- Er, react_document_reply.
      assert (H0 : documentInfo (view w0) = None).
      { unfold mount, fetchDocumentInfo, tabEffect in Em. simpl in Em.
        destruct (present id); injection Em as <- _; reflexivity. }
      rewrite H0. destruct r; try reflexivity; discriminate.
Qed.

(** ** The summary *)

Lemma react_summary (s : State) (e : Event) :
  summary (fst (react s e)) =
  match e with
  | Settled _ (SummaryReply (HttpOk d)) => Some d
  | _ => summary s
  end.
Proof.
  assert (Hc : forall prev fresh c, summary (fst (commit prev fresh c)) = summary c).
  { intros prev fresh c.
    destruct (commit_kept prev fresh c) as [_ [_ [_ [_ [H _]]]]]. exact H. }
  destruct e as [id | k | t | q | | rq rp]; cbn [react];
    try (rewrite Hc; reflexivity).
  - destruct (handleQuerySubmit_kept s) as [_ [_ [_ [_ [H _]]]]]. exact H.
  - fold (react s (Settled rq rp)). rewrite react_settled, Hc.
    destruct rp as [r | r | r | r]; destruct r; reflexivity.
Qed.

Lemma run_summary (tr : list Event) :
  forall w : World,
    summary (view (fst (run w tr))) = last_summary (summary (view w)) tr.
Proof.
  induction tr as [|e tr IH]; intros w; [reflexivity|].
  unfold run. rewrite machine_run_cons. cbn [fst]. fold (run (fst (step w e)) tr).
  rewrite IH.
  assert (Hs : summary (view (fst (step w e))) = summary (fst (react (view w) e))).
  { unfold step. destruct (react (view w) e). reflexivity. }
  rewrite Hs, react_summary.
  destruct e as [id | k | t | q | | rq [r | r | r | r]]; try reflexivity.
  destruct r; reflexivity.
Qed.

Lemma last_summary_source (tr : list Event) :
  forall (acc : option Summary.t) (sm : Summary.t),
    last_summary acc tr = Some sm ->
    acc = Some sm \/ exists rq, In (Settled rq (SummaryReply (HttpOk sm))) tr.
Proof.
  induction tr as [|e tr IH]; intros acc sm H; [left; exact H|].
  assert (Hskip : last_summary acc tr = Some sm ->
                  acc = Some sm \/
                  exists rq, In (Settled rq (SummaryReply (HttpOk sm))) (e :: tr)).
  { intros H'. destruct (IH _ _ H') as [Ha | [rq Hin]]; [left; exact Ha|].
    right. exists rq. right. exact Hin. }
  destruct e as [id | k | t | q | | rq [r | r | r | r]]; try (apply Hskip; exact H).
  destruct r as [| st tx | | d]; try (apply Hskip; exact H).
  simpl in H. destruct (IH _ _ H) as [Ha | [rq' Hin]].
  - injection Ha as <-. right. exists rq. left. reflexivity.
  - right. exists rq'. right. exact Hin.
Qed.

(** C8, as the code has it.  The stored summary is, in every session,
    the body of the last summary fetch that succeeded, and is absent
    when none did; so a summary is held only after a summary fetch of
    this session succeeded with it.  A change of the identifier leaves
    the stored summary as it is. *)
Theorem summary_is_last_fetched :
  forall (id : option string) (key : string) (tr : list Event) (sm : Summary.t),
    summary (view (fst (session id key tr))) = last_summary None tr
    /\ (summary (view (fst (session id key tr))) = Some sm ->
        exists rq : Request, In (Settled rq (SummaryReply (HttpOk sm))) tr)
    /\ (forall (s : State) (id' : option string),
           summary (fst (react s (Navigate id'))) = summary s).
Proof.
  intros id key tr sm.
  assert (H : summary (view (fst (session id key tr))) = last_summary None tr).
  { unfold session. destruct (mount id key) as [w0 rs0] eqn:Em.
    pose proof (run_summary tr w0) as Hr.
    destruct (run w0 tr) as [w rs]. cbn [fst] in *. rewrite Hr.
    f_equal. unfold mount, fetchDocumentInfo, tabEffect in Em. simpl in Em.
    destruct (present id); injection Em as <- _; reflexivity. }
  split; [exact H|]. split.
  - rewrite H. intros Hl.
    destruct (last_summary_source tr None sm Hl) as [Hn | Hex];
      [discriminate|exact Hex].
  - intros s id'. apply react_summary.
Qed.

(** ** Tabs *)

Lemma react_click (s : State) (t : Tab) (id : string) :
  present (documentId s) = Some id -> complete (documentInfo s) = true ->
  snd (react s (ClickTab t)) =
  if Tab_eqb (activeTab s) t then [] else tab_request t id (apiKey s).
Proof.
  intros Hp Hc. cbn [react]. unfold commit, same_props.
  cbn [documentId apiKey activeTab setActiveTab].
  rewrite option_string_eqb_refl, String.eqb_refl. cbn [andb negb orb].
  destruct (Tab_eqb (activeTab s) t); cbn [negb]; [reflexivity|].
  unfold tabEffect, fetchSummary, fetchKeyPoints.
  cbn [documentId documentInfo apiKey activeTab setActiveTab].
  rewrite Hp, Hc. destruct t; reflexivity.
Qed.

Lemma step_requests (w : World) (e : Event) :
  snd (step w e) = snd (react (view w) e).
Proof. unfold step. destruct (react (view w) e). reflexivity. Qed.

Lemma step_view (w : World) (e : Event) :
  view (fst (step w e)) = fst (react (view w) e).
Proof. unfold step. destruct (react (view w) e). reflexivity. Qed.

(** C2, as the code has it.  For a document that is loaded and
    processed, a click on a tab sends the request of that tab (summary
    or key points; none for the query tab) whenever it changes the
    active tab, visited before or not, and sends nothing when the tab
    is the active one already.  From the summary tab, going to the key
    points and back sends one key-points request and one more summary
    request. *)
Theorem tab_change_fetches_again :
  forall (w : World) (t : Tab) (id : string),
    present (documentId (view w)) = Some id ->
    complete (documentInfo (view w)) = true ->
    snd (step w (ClickTab t)) =
      (if Tab_eqb (activeTab (view w)) t then []
       else tab_request t id (apiKey (view w)))
    /\ (activeTab (view w) = summaryTab ->
        snd (run w [ClickTab keyPointsTab; ClickTab summaryTab]) =
        [GetKeyPoints id 10 (headers (apiKey (view w)));
         GetSummary id 1000 (headers (apiKey (view w)))]).
Proof.
  intros w t id Hp Hc. split.
  - rewrite step_requests. apply react_click; assumption.
  - intros Ht. unfold run. rewrite !machine_run_cons. cbn [Machine.run fst snd].
    rewrite app_nil_r, !step_requests, step_view.
    destruct (commit_kept (view w) false (setActiveTab keyPointsTab (view w)))
      as [K1 [K2 [K3 [K4 _]]]].
    cbn [documentId apiKey activeTab documentInfo setActiveTab] in K1, K2, K3, K4.
    rewrite (react_click (view w) keyPointsTab id Hp Hc).
    rewrite (react_click _ summaryTab id);
      cbn [react]; [|rewrite K1; exact Hp|rewrite K4; exact Hc].
    rewrite K2, K3, Ht. reflexivity.
Qed.

End ViewerFacts.

(** ** The viewer on the examples *)

Section ViewerCases.
Import Http JsText DocumentViewer ViewerExamples.
Local Open Scope string_scope.

Lemma derived_fetch_guarded_witness :
  eligible waiting_view = false
  /\ fetchKeyPoints waiting_view (setActiveTab keyPointsTab waiting_view) =
     (setActiveTab keyPointsTab waiting_view, [])
  /\ In (GetKeyPoints "doc-1" 10 keyed) (snd (react opened_view (ClickTab keyPointsTab)))
  /\ complete (documentInfo (fst (react opened_view (ClickTab keyPointsTab)))) = true.
Proof.
  pose proof (derived_fetch_guarded waiting_view
                (setActiveTab keyPointsTab waiting_view)
                (ClickTab keyPointsTab) (GetKeyPoints "doc-1" 10 keyed)
                (Some "doc-1") "key-1") as [Hno _].
  pose proof (derived_fetch_guarded opened_view opened_view
                (ClickTab keyPointsTab) (GetKeyPoints "doc-1" 10 keyed)
                (Some "doc-1") "key-1") as [_ [Hsent _]].
  assert (Hin : In (GetKeyPoints "doc-1" 10 keyed)
                   (snd (react opened_view (ClickTab keyPointsTab))))
    by (left; reflexivity).
  split; [reflexivity|]. split; [exact (proj1 (proj2 (Hno eq_refl)))|].
  split; [exact Hin|]. exact (proj1 (Hsent Hin eq_refl)).
Defined.

Lemma blank_query_is_not_sent_witness :
  trim (query (setQuery [32; 9; 160]%N asking_view)) = []
  /\ react (setQuery [32; 9; 160]%N asking_view) SubmitQuery =
     (setQuery [32; 9; 160]%N asking_view, [])
  /\ In (PostQuery "doc-1" keyed [119; 104; 121; 63]%N)
        (snd (react asking_view SubmitQuery))
  /\ eligible asking_view = true.
Proof.
  pose proof (blank_query_is_not_sent (setQuery [32; 9; 160]%N asking_view)
                asking_view SubmitQuery
                (PostQuery "doc-1" keyed [119; 104; 121; 63]%N)) as [_ [Hno Hsent]].
  assert (Hin : In (PostQuery "doc-1" keyed [119; 104; 121; 63]%N)
                   (snd (react asking_view SubmitQuery)))
    by (left; reflexivity).
  split; [reflexivity|]. split; [exact (proj2 (Hno eq_refl))|].
  split; [exact Hin|]. exact (proj1 (proj2 (proj2 (Hsent Hin eq_refl)))).
Defined.

(** C6, against the claim as written: after "doc-1" was loaded and the
    route moved to "doc-2", the metadata fetch for "doc-2" fails and
    the stored [documentInfo] is still the one of "doc-1", not null. *)
Lemma failed_reload_keeps_previous_metadata :
  ~ (forall (id : option string) (key : string) (tr : list Event)
            (rq : Request) (r : FetchResult DocumentInfo.t),
        possible id key (tr ++ [Settled rq (DocumentReply r)]) = true ->
        failed r = true ->
        documentInfo
          (view (fst (session id key (tr ++ [Settled rq (DocumentReply r)])))) = None).
Proof.
  intros H.
  specialize (H (Some "doc-1") "key-1" moved_on (GetDocument "doc-2" keyed)
                NetworkFailure eq_refl eq_refl).
  vm_compute in H. discriminate H.
Qed.

Lemma metadata_fetch_replaces_or_keeps_witness :
  failed (NetworkFailure (A := DocumentInfo.t)) = true
  /\ documentInfo
       (fst (react (view (fst (session (Some "doc-1") "key-1" moved_on)))
               (Settled (GetDocument "doc-2" keyed) (DocumentReply NetworkFailure))))
     = Some (info "doc-1" true).
Proof.
  pose proof (metadata_fetch_replaces_or_keeps
                (view (fst (session (Some "doc-1") "key-1" moved_on)))
                (GetDocument "doc-2" keyed) NetworkFailure (Some "doc-2") "key-1")
    as [_ Hfail].
  split; [reflexivity|]. exact (proj1 (Hfail eq_refl)).
Defined.

(** C8, against the claim as written: after the summary of "doc-1"
    arrived and the route moved to "doc-2", the stored summary is still
    the one of "doc-1". *)
Lemma summary_survives_navigation :
  ~ (forall (id : option string) (key : string) (tr : list Event) (sm : Summary.t),
        possible id key tr = true ->
        summary (view (fst (session id key tr))) = Some sm ->
        documentId (view (fst (session id key tr))) = Some (Summary.document_id sm)).
Proof.
  intros H.
  specialize (H (Some "doc-1") "key-1" moved_on (summary_of "doc-1") eq_refl eq_refl).
  vm_compute in H. discriminate H.
Qed.

Lemma summary_is_last_fetched_witness :
  summary (view (fst (session (Some "doc-1") "key-1" moved_on))) = Some (summary_of "doc-1")
  /\ exists rq : Request,
       In (Settled rq (SummaryReply (HttpOk (summary_of "doc-1")))) moved_on.
Proof.
  pose proof (summary_is_last_fetched (Some "doc-1") "key-1" moved_on (summary_of "doc-1"))
    as [_ [Hsrc _]].
  split; [reflexivity|]. exact (Hsrc eq_refl).
Defined.

(** C2, against the claim as written: with "doc-1" held fixed, going
    from the summary to the key points and back sends a second summary
    request. *)
Lemma revisiting_summary_fetches_twice :
  ~ (forall (id : option string) (key : string) (tr : list Event),
        possible id key tr = true -> held_fixed tr = true ->
        (count is_summary (snd (session id key tr)) <= 1)%nat
        /\ (count is_keyPoints (snd (session id key tr)) <= 1)%nat).
Proof.
  intros H.
  destruct (H (Some "doc-1") "key-1" back_and_forth eq_refl eq_refl) as [H1 _].
  vm_compute in H1. lia.
Qed.

Lemma tab_change_fetches_again_witness :
  present (documentId (view opened_world)) = Some "doc-1"
  /\ complete (documentInfo (view opened_world)) = true
  /\ activeTab (view opened_world) = summaryTab
  /\ snd (run opened_world [ClickTab keyPointsTab; ClickTab summaryTab]) =
     [GetKeyPoints "doc-1" 10 keyed; GetSummary "doc-1" 1000 keyed].
Proof.
  pose proof (tab_change_fetches_again opened_world keyPointsTab "doc-1"
                eq_refl eq_refl) as [_ Hseq].
  split; [reflexivity|]. split; [reflexivity|]. split; [reflexivity|].
  exact (Hseq eq_refl).
Defined.

End ViewerCases.

(** * More on traces *)

Section MachineInvariants.
Variables World Event Request : Type.
Variable step : World -> Event -> World * list Request.
Variable enabled : World -> Event -> bool.

Lemma machine_feasible_app (tr1 tr2 : list Event) :
  forall w : World,
    Machine.feasible step enabled w (tr1 ++ tr2) =
    Machine.feasible step enabled w tr1
    && Machine.feasible step enabled (fst (Machine.run step w tr1)) tr2.
Proof.
  induction tr1 as [|e tr1 IH]; intros w; [reflexivity|].
  rewrite <- app_comm_cons, !machine_feasible_cons, machine_run_cons, IH.
  cbn [fst]. rewrite andb_assoc. reflexivity.
Qed.

(** What every enabled step keeps holds after every feasible trace. *)
Lemma machine_invariant (I : World -> Prop) :
  (forall w e, I w -> enabled w e = true -> I (fst (step w e))) ->
  forall (tr : list Event) (w : World),
    I w -> Machine.feasible step enabled w tr = true ->
    I (fst (Machine.run step w tr)).
Proof.
  intros Hstep tr. induction tr as [|e tr IH]; intros w HI Hf; [exact HI|].
  rewrite machine_feasible_cons in Hf. apply andb_prop in Hf as [He Hf].
  rewrite machine_run_cons. cbn [fst]. apply IH; [|exact Hf].
  apply Hstep; assumption.
Qed.

End MachineInvariants.

(** * The paginated list: further properties *)

Section LoaderMore.
Import Http DocumentList LoaderStates.
Local Open Scope Z_scope.

Variable limit : Z.

Lemma settle_isLoading (p : Z) (r : FetchResult DocumentsPage) (s : State) :
  isLoading (fetchDocuments_settle limit p r s) = false.
Proof. reflexivity. Qed.

Lemma session_run (key : string) (tr : list Event) :
  session limit key tr =
  (fst (run limit (fst (mount limit key)) tr),
   snd (mount limit key) ++ snd (run limit (fst (mount limit key)) tr)).
Proof.
  unfold session. destruct (mount limit key) as [w0 rs0]. cbn [fst snd].
  destruct (run limit w0 tr). reflexivity.
Qed.

Lemma Paired_step (w : World) (e : Event) :
  Paired w -> enabled w e = true -> Paired (fst (step limit w e)).
Proof.
  intros HP He. destruct e as [| k | p r]; cbn [step fst].
  - cbn [enabled] in He. apply andb_prop in He as [_ He].
    apply andb_prop in He as [_ Hl]. apply negb_true_iff in Hl.
    destruct HP as [[Hf _] | [_ Hl']]; [|congruence].
    right. cbn [fetchDocuments_call fst inflight view]. rewrite Hf. split; reflexivity.
  - destruct HP as [[Hf Hl] | [Hf Hl]]; [left | right]; split; assumption.
  - cbn [enabled] in He.
    destruct HP as [[Hf _] | [Hf _]]; rewrite Hf in He; [discriminate|].
    simpl in He. rewrite orb_false_r in He. apply Z.eqb_eq in He. subst p.
    left. cbn [inflight view]. rewrite Hf. simpl. rewrite Z.eqb_refl.
    split; reflexivity.
Qed.

Lemma Paired_session (key : string) (tr : list Event) :
  possible limit key tr = true -> Paired (fst (session limit key tr)).
Proof.
  intros Hp. rewrite session_run. cbn [fst].
  apply (machine_invariant _ _ _ (step limit) enabled Paired Paired_step); [|exact Hp].
  right. split; reflexivity.
Qed.

(** X1.  In every session the list allows, at most one page request is
    in flight, and the list shows its spinner exactly while one is. *)
Theorem one_page_request_in_flight :
  forall (key : string) (tr : list Event),
    possible limit key tr = true ->
    (List.length (inflight (fst (session limit key tr))) <= 1)%nat
    /\ (isLoading (view (fst (session limit key tr))) = true <->
        inflight (fst (session limit key tr)) <> []).
Proof.
  intros key tr Hp.
  destruct (Paired_session key tr Hp) as [[Hf Hl] | [Hf Hl]];
    rewrite Hf, Hl; simpl; split; try lia; split;
    intros H; try discriminate; try reflexivity.
  exfalso. apply H. reflexivity.
Qed.

Lemma Quiet_step (w : World) (e : Event) :
  Quiet w -> enabled w e = true ->
  Quiet (fst (step limit w e)) /\ snd (step limit w e) = []
  /\ documents (view (fst (step limit w e))) = documents (view w)
  /\ hasMore (view (fst (step limit w e))) = hasMore (view w).
Proof.
  intros [Hf [Hl Hq]] He. destruct e as [| k | p r].
  - exfalso. cbn [enabled] in He. rewrite Hl in He. cbn [negb] in He.
    rewrite !andb_true_r in He. apply andb_prop in He as [Hd Hh].
    destruct Hq as [Hq | Hq]; [congruence|].
    rewrite Hq in Hd. discriminate.
  - repeat split; assumption.
  - exfalso. cbn [enabled] in He. rewrite Hf in He. discriminate.
Qed.

Lemma Quiet_run (tr : list Event) :
  forall w : World,
    Quiet w -> feasible limit w tr = true ->
    snd (run limit w tr) = []
    /\ documents (view (fst (run limit w tr))) = documents (view w)
    /\ hasMore (view (fst (run limit w tr))) = hasMore (view w).
Proof.
  induction tr as [|e tr IH]; intros w HQ Hf; [repeat split|].
  unfold feasible in Hf. rewrite machine_feasible_cons in Hf.
  apply andb_prop in Hf as [He Hf].
  destruct (Quiet_step w e HQ He) as [HQ' [Hr [Hd Hh]]].
  destruct (IH _ HQ' Hf) as [Hr' [Hd' Hh']].
  rewrite run_cons. cbn [fst snd]. rewrite Hr, Hr', Hd', Hh'.
  repeat split; assumption.
Qed.

Lemma possible_app (key : string) (tr tr' : list Event) :
  possible limit key (tr ++ tr') = true ->
  possible limit key tr = true
  /\ feasible limit (fst (session limit key tr)) tr' = true.
Proof.
  unfold possible, feasible. rewrite machine_feasible_app. intros H.
  apply andb_prop in H as [H1 H2]. split; [exact H1|].
  rewrite session_run. exact H2.
Qed.

Lemma session_app (key : string) (tr tr' : list Event) :
  session limit key (tr ++ tr') =
  (fst (run limit (fst (session limit key tr)) tr'),
   snd (session limit key tr) ++ snd (run limit (fst (session limit key tr)) tr')).
Proof.
  rewrite !session_run. unfold run. rewrite machine_run_app. cbn [fst snd].
  rewrite app_assoc. reflexivity.
Qed.

(** X2.  Once [hasMore] is false in a session the list allows, whatever
    can still happen sends no request and leaves the accumulated list
    as it is: the list is at its end for good. *)
Theorem exhausted_list_sends_nothing :
  forall (key : string) (tr tr' : list Event),
    possible limit key (tr ++ tr') = true ->
    hasMore (view (fst (session limit key tr))) = false ->
    snd (session limit key (tr ++ tr')) = snd (session limit key tr)
    /\ documents (view (fst (session limit key (tr ++ tr')))) =
       documents (view (fst (session limit key tr))).
Proof.
  intros key tr tr' Hp Hh.
  destruct (possible_app key tr tr' Hp) as [Hp1 Hp2].
  assert (HQ : Quiet (fst (session limit key tr))).
  { destruct (Paired_session key tr Hp1) as [[Hf Hl] | [Hf Hl]].
    - split; [exact Hf|]. split; [exact Hl|]. left. exact Hh.
    - destruct (Inv_session limit key tr Hp1) as [_ _ _ _ _ [Hf' | [_ [_ [Hm _]]]]];
        congruence. }
  destruct (Quiet_run tr' _ HQ Hp2) as [Hr [Hd _]].
  rewrite session_app. cbn [fst snd]. rewrite Hr, app_nil_r.
  split; [reflexivity|exact Hd].
Qed.

(** X3.  When the first page fails to load, or arrives without entries,
    the list never sends another request: the Load More button is not
    rendered over an empty list, and nothing else fetches. *)
Theorem empty_first_page_is_a_dead_end :
  forall (key : string) (r : FetchResult DocumentsPage) (tr : list Event),
    failed r = true \/ (exists data, r = HttpOk data /\ page_documents data = []) ->
    possible limit key (Settled 1 r :: tr) = true ->
    snd (session limit key (Settled 1 r :: tr)) = snd (mount limit key)
    /\ documents (view (fst (session limit key (Settled 1 r :: tr)))) = [].
Proof.
  intros key r tr Hr Hp.
  change (Settled 1 r :: tr) with ([Settled 1 r] ++ tr) in Hp |- *.
  destruct (possible_app key _ _ Hp) as [_ Hp2].
  assert (HQ : Quiet (fst (session limit key [Settled 1 r]))
               /\ documents (view (fst (session limit key [Settled 1 r]))) = []
               /\ snd (session limit key [Settled 1 r]) = snd (mount limit key)).
  { destruct Hr as [Hr | [data [-> Hd]]].
    - destruct r; try discriminate; repeat split; right; reflexivity.
    - destruct data as [d]. cbn [page_documents] in Hd. subst d.
      unfold session, mount, run. cbn.
      destruct (0 <? limit); repeat split; right; reflexivity. }
  destruct HQ as [HQ [Hd Hs]].
  destruct (Quiet_run tr _ HQ Hp2) as [Hr' [Hd' _]].
  rewrite session_app. cbn [fst snd]. rewrite Hr', app_nil_r, Hd'.
  split; assumption.
Qed.

End LoaderMore.

(** * The document viewer: further properties *)

Section ViewerMore.
Import Http JsText DocumentViewer ViewerReadings.

Ltac guards :=
  repeat match goal with
         | |- context [match present ?x with _ => _ end] =>
             destruct (present x) eqn:?
         | |- context [match activeTab ?c with _ => _ end] =>
             destruct (activeTab c) eqn:?
         | |- context [if ?b then _ else _] => destruct b eqn:?
         end.

Ltac members rq :=
  repeat match goal with
         | H : _ \/ _ |- _ => destruct H
         | H : False |- _ => destruct H
         | H : _ = rq |- _ => subst rq
         end.

(** ** Headers *)

Lemma headers_key (key k : string) :
  In ("X-API-Key"%string, k) (headers key) <-> k = key /\ Http.truthy key = true.
Proof.
  unfold headers. destruct (Http.truthy key); simpl; split.
  - intros [H | [H | []]]; [discriminate|]. injection H as <-. split; reflexivity.
  - intros [-> _]. right. left. reflexivity.
  - intros [H | []]. discriminate.
  - intros [_ H]. discriminate.
Qed.

Lemma commit_headers (prev : State) (fresh : bool) (c : State) (rq : Request) :
  In rq (snd (commit prev fresh c)) -> request_headers rq = headers (apiKey c).
Proof.
  unfold commit, tabEffect, fetchDocumentInfo, fetchSummary, fetchKeyPoints.
  guards; simpl; intros Hin; members rq; reflexivity.
Qed.

Lemma react_headers (s : State) (e : Event) (rq : Request) :
  In rq (snd (react s e)) ->
  request_headers rq = headers (apiKey (fst (react s e))).
Proof.
  assert (Hc : forall prev fresh c,
             In rq (snd (commit prev fresh c)) ->
             request_headers rq = headers (apiKey (fst (commit prev fresh c)))).
  { intros prev fresh c H. destruct (commit_kept prev fresh c) as [_ [K _]].
    rewrite K. apply (commit_headers prev fresh c rq H). }
  destruct e as [id | k | t | q | | rq0 rp]; intros Hin; try (apply Hc; exact Hin).
  - destruct (handleQuerySubmit_kept s) as [_ [K _]].
    cbn [react] in Hin |- *. rewrite K. revert Hin. unfold handleQuerySubmit.
    guards; simpl; intros Hin; members rq; reflexivity.
  - rewrite react_settled in Hin |- *. apply Hc. exact Hin.
Qed.

(** X4.  Every request the viewer sends carries the [X-API-Key] header
    exactly when a key is set, and then with the key the viewer holds at
    that moment. *)
Theorem viewer_requests_carry_the_key :
  forall (s : State) (e : Event) (rq : Request) (k : string),
    In rq (snd (react s e)) ->
    (In ("X-API-Key"%string, k) (request_headers rq) <->
     k = apiKey (fst (react s e)) /\ Http.truthy k = true).
Proof.
  intros s e rq k Hin. rewrite (react_headers s e rq Hin), headers_key.
  split; intros [-> H]; split; try reflexivity; exact H.
Qed.

(** ** What sends and what does not *)

Lemma option_string_eqb_eq (a b : option string) :
  option_string_eqb a b = true <-> a = b.
Proof.
  destruct a as [x|], b as [y|]; simpl; split; intros H;
    try discriminate; try reflexivity.
  - apply String.eqb_eq in H. subst. reflexivity.
  - injection H as ->. apply String.eqb_refl.
Qed.

Lemma same_props_false (prev c : State) :
  same_props prev c = false ->
  documentId prev <> documentId c \/ apiKey prev <> apiKey c.
Proof.
  unfold same_props. intros H. apply andb_false_iff in H as [H | H].
  - left. intros E. apply option_string_eqb_eq in E. congruence.
  - right. intros E. apply String.eqb_eq in E. congruence.
Qed.

Lemma commit_quiet (prev c : State) (fresh : bool) :
  same_props prev c = true ->
  fresh = false -> Tab_eqb (activeTab prev) (activeTab c) = true ->
  commit prev fresh c = (c, []).
Proof. intros H1 -> H3. unfold commit. rewrite H1, H3. reflexivity. Qed.

Lemma commit_document (prev : State) (fresh : bool) (c : State) (rq : Request) :
  In rq (snd (commit prev fresh c)) -> derived rq = false ->
  same_props prev c = false.
Proof.
  unfold commit. destruct (same_props prev c); [|reflexivity].
  cbn [negb orb]. unfold tabEffect, fetchSummary, fetchKeyPoints.
  guards; simpl; intros Hin Hd; members rq; discriminate.
Qed.

(** X5.  The viewer asks for the metadata of a document only when the
    route parameter or the key changes (and at mount): no click, no
    typing, no submission and no reply makes it ask again, so a
    document that is still being processed is never polled. *)
Theorem metadata_is_never_polled :
  forall (s : State) (e : Event) (rq : Request),
    In rq (snd (react s e)) -> derived rq = false ->
    (exists id, e = Navigate id /\ id <> documentId s)
    \/ (exists k, e = ApiKeyChanged k /\ k <> apiKey s).
Proof.
  intros s e rq Hin Hd.
  destruct e as [id | k | t | q | | rq0 rp].
  - left. exists id. split; [reflexivity|].
    apply commit_document in Hin; [|exact Hd].
    apply same_props_false in Hin. cbn in Hin.
    destruct Hin as [H | H]; congruence.
  - right. exists k. split; [reflexivity|].
    apply commit_document in Hin; [|exact Hd].
    apply same_props_false in Hin. cbn in Hin.
    destruct Hin as [H | H]; congruence.
  - exfalso. apply commit_document in Hin; [|exact Hd].
    apply same_props_false in Hin. cbn in Hin. destruct Hin as [H | H]; congruence.
  - exfalso. apply commit_document in Hin; [|exact Hd].
    apply same_props_false in Hin. cbn in Hin. destruct Hin as [H | H]; congruence.
  - exfalso. revert Hin. cbn [react]. unfold handleQuerySubmit.
    guards; simpl; intros Hin; members rq; discriminate.
  - exfalso. rewrite react_settled in Hin.
    apply commit_document in Hin; [|exact Hd].
    apply same_props_false in Hin.
    destruct rp as [r | r | r | r]; destruct r; cbn in Hin;
      destruct Hin as [H | H]; congruence.
Qed.

(** X6.  When metadata arrives, the viewer at once fetches for the
    active tab if the metadata reports the processing complete (the
    summary or the key points; nothing on the query tab), and sends
    nothing if it does not; the user need not select the tab again. *)
Theorem metadata_arrival_fetches_active_tab :
  forall (s : State) (rq : Request) (data : DocumentInfo.t),
    snd (react s (Settled rq (DocumentReply (HttpOk data)))) =
    match present (documentId s) with
    | Some id =>
        if DocumentInfo.processing_complete data
        then tab_request (activeTab s) id (apiKey s) else []
    | None => []
    end.
Proof.
  intros s rq data. rewrite react_settled. cbn [settle fst snd failed negb].
  unfold commit, same_props, fetchDocumentInfo_settle. simpl.
  rewrite option_string_eqb_refl, String.eqb_refl. simpl.
  unfold tabEffect, fetchSummary, fetchKeyPoints. simpl.
  destruct (DocumentInfo.processing_complete data);
    destruct (present (documentId s)); destruct (activeTab s); reflexivity.
Qed.

(** X7.  When the route changes to another document, the viewer asks
    for its metadata and, if the metadata still held (of the document
    shown before) reports the processing complete, also sends the fetch
    of the active tab for the new identifier at once, before the new
    metadata arrives; the metadata and the artifacts held stay.  A
    route change to the same identifier sends nothing. *)
Theorem route_change_refetches :
  forall (s : State) (id' : option string) (i : string),
    id' <> documentId s -> present id' = Some i ->
    snd (react s (Navigate id')) =
      GetDocument i (headers (apiKey s)) ::
      (if complete (documentInfo s)
       then tab_request (activeTab s) i (apiKey s) else [])
    /\ documentInfo (fst (react s (Navigate id'))) = documentInfo s
    /\ summary (fst (react s (Navigate id'))) = summary s
    /\ keyPoints (fst (react s (Navigate id'))) = keyPoints s
    /\ queryResponse (fst (react s (Navigate id'))) = queryResponse s
    /\ snd (react s (Navigate (documentId s))) = [].
Proof.
  intros s id' i Hne Hp.
  destruct (commit_kept s false (withDocumentId id' s))
    as [_ [_ [_ [K4 [K5 [K6 [_ K8]]]]]]].
  split; [|split; [exact K4|split; [exact K5|split; [exact K6|split; [exact K8|]]]]].
  - cbn [react]. unfold commit, same_props. cbn [documentId apiKey activeTab withDocumentId].
    destruct (option_string_eqb (documentId s) id') eqn:E.
    + apply option_string_eqb_eq in E. congruence.
    + cbn [andb negb orb]. unfold fetchDocumentInfo, tabEffect, fetchSummary, fetchKeyPoints.
      cbn [documentId apiKey activeTab documentInfo withDocumentId]. rewrite Hp.
      destruct (complete (documentInfo s)); destruct (activeTab s); reflexivity.
  - cbn [react]. rewrite commit_idle; reflexivity.
Qed.

(** X8.  A reply that brings a summary, key points or an answer stores
    it in its own cell and changes neither the other two artifacts, nor
    the metadata, nor the active tab, nor the error message in place
    (a success does not clear a message that another fetch set); it
    sends nothing. *)
Theorem successful_reply_touches_its_cell_only :
  forall (s : State) (rq : Request) (rp : Reply) (t : Tab),
    tab_of_reply rp = Some t -> reply_failed rp = false ->
    summary (fst (react s (Settled rq rp))) =
      match rp with SummaryReply (HttpOk d) => Some d | _ => summary s end
    /\ keyPoints (fst (react s (Settled rq rp))) =
      match rp with KeyPointsReply (HttpOk d) => Some d | _ => keyPoints s end
    /\ queryResponse (fst (react s (Settled rq rp))) =
      match rp with
      | QueryReply (HttpOk d) => Some (QueryResult.response d)
      | _ => queryResponse s
      end
    /\ documentInfo (fst (react s (Settled rq rp))) = documentInfo s
    /\ activeTab (fst (react s (Settled rq rp))) = activeTab s
    /\ error (fst (react s (Settled rq rp))) = error s
    /\ snd (react s (Settled rq rp)) = [].
Proof.
  intros s rq rp t Ht Hf. rewrite (react_settled_derived s rq rp t Ht).
  destruct rp as [r | r | r | r]; try discriminate;
    destruct r; try discriminate; repeat split.
Qed.

(** X9.  Typing in the query box, a reply to a summary, key-points or
    query fetch, and a metadata fetch that fails send nothing: the only
    events that can make the viewer send are a change of route, key or
    tab, a submission and an arrival of metadata. *)
Theorem only_these_events_send :
  forall (s : State) (e : Event),
    snd (react s e) <> [] ->
    match e with
    | Navigate id => id <> documentId s
    | ApiKeyChanged k => k <> apiKey s
    | ClickTab t => t <> activeTab s
    | TypeQuery _ => False
    | SubmitQuery => True
    | Settled _ rp => exists data, rp = DocumentReply (HttpOk data)
    end.
Proof.
  intros s e H. destruct e as [id | k | t | q | | rq rp]; cbn [react] in H.
  - intros ->. apply H. rewrite commit_idle; reflexivity.
  - intros ->. apply H. rewrite commit_idle; reflexivity.
  - intros ->. apply H. rewrite commit_idle; reflexivity.
  - apply H. rewrite commit_idle; reflexivity.
  - exact I.
  - fold (react s (Settled rq rp)) in H.
    destruct rp as [r | r | r | r].
    2: { exfalso. apply H.
         rewrite (react_settled_derived s rq (SummaryReply r) summaryTab eq_refl).
         reflexivity. }
    2: { exfalso. apply H.
         rewrite (react_settled_derived s rq (KeyPointsReply r) keyPointsTab eq_refl).
         reflexivity. }
    2: { exfalso. apply H.
         rewrite (react_settled_derived s rq (QueryReply r) queryTab eq_refl).
         reflexivity. }
    destruct r as [| st tx | | data]; [| | |exists data; reflexivity];
      exfalso; apply H; rewrite react_settled; cbn [settle fst snd failed negb];
      rewrite commit_idle; reflexivity.
Qed.

(** ** The key points and the answer held *)

Lemma react_keyPoints (s : State) (e : Event) :
  keyPoints (fst (react s e)) =
  match e with
  | Settled _ (KeyPointsReply (HttpOk d)) => Some d
  | _ => keyPoints s
  end.
Proof.
  assert (Hc : forall prev fresh c, keyPoints (fst (commit prev fresh c)) = keyPoints c).
  { intros prev fresh c.
    destruct (commit_kept prev fresh c) as [_ [_ [_ [_ [_ [H _]]]]]]. exact H. }
  destruct e as [id | k | t | q | | rq rp]; cbn [react];
    try (rewrite Hc; reflexivity).
  - destruct (handleQuerySubmit_kept s) as [_ [_ [_ [_ [_ [H _]]]]]]. exact H.
  - fold (react s (Settled rq rp)). rewrite react_settled, Hc.
    destruct rp as [r | r | r | r]; destruct r; reflexivity.
Qed.

Lemma react_answer (s : State) (e : Event) :
  queryResponse (fst (react s e)) =
  match e with
  | Settled _ (QueryReply (HttpOk d)) => Some (QueryResult.response d)
  | _ => queryResponse s
  end.
Proof.
  assert (Hc : forall prev fresh c,
             queryResponse (fst (commit prev fresh c)) = queryResponse c).
  { intros prev fresh c.
    destruct (commit_kept prev fresh c) as [_ [_ [_ [_ [_ [_ [_ H]]]]]]]. exact H. }
  destruct e as [id | k | t | q | | rq rp]; cbn [react];
    try (rewrite Hc; reflexivity).
  - destruct (handleQuerySubmit_kept s) as [_ [_ [_ [_ [_ [_ [_ H]]]]]]]. exact H.
  - fold (react s (Settled rq rp)). rewrite react_settled, Hc.
    destruct rp as [r | r | r | r]; destruct r; reflexivity.
Qed.

Lemma run_artifacts (tr : list Event) :
  forall w : World,
    keyPoints (view (fst (run w tr))) = last_keyPoints (keyPoints (view w)) tr
    /\ queryResponse (view (fst (run w tr))) = last_answer (queryResponse (view w)) tr.
Proof.
  induction tr as [|e tr IH]; intros w; [split; reflexivity|].
  unfold run. rewrite machine_run_cons. cbn [fst]. fold (run (fst (step w e)) tr).
  destruct (IH (fst (step w e))) as [IH1 IH2]. rewrite IH1, IH2.
  rewrite !step_view, react_keyPoints, react_answer.
  destruct e as [id | k | t | q | | rq [r | r | r | r]]; try (split; reflexivity);
    destruct r; split; reflexivity.
Qed.

(** X10.  In every session, the key points held are the body of the
    last key-points fetch that succeeded and the answer held is the
    response of the last query that succeeded (none before the first):
    a later success replaces them, and neither a failure nor a change
    of route, key or tab clears them. *)
Theorem artifacts_are_the_last_fetched :
  forall (id : option string) (key : string) (tr : list Event),
    keyPoints (view (fst (session id key tr))) = last_keyPoints None tr
    /\ queryResponse (view (fst (session id key tr))) = last_answer None tr.
Proof.
  intros id key tr.
  assert (H0 : keyPoints (view (fst (mount id key))) = None
               /\ queryResponse (view (fst (mount id key))) = None).
  { unfold mount, fetchDocumentInfo, tabEffect. simpl.
    destruct (present id); split; reflexivity. }
  pose proof (run_artifacts tr (fst (mount id key))) as [H1 H2].
  destruct H0 as [K Q]. rewrite K in H1. rewrite Q in H2.
  unfold session. destruct (mount id key) as [w0 rs0]. cbn [fst] in *.
  destruct (run w0 tr) as [w rs]. cbn [fst] in *. split; assumption.
Qed.

(** ** One query at a time *)

Lemma count_app (f : Request -> bool) (a b : list Request) :
  count f (a ++ b) = (count f a + count f b)%nat.
Proof. unfold count. rewrite filter_app, length_app. reflexivity. Qed.

Lemma Request_eqb_eq (a b : Request) : Request_eqb a b = true -> a = b.
Proof. unfold Request_eqb. destruct (Request_eq_dec a b); [auto|discriminate]. Qed.

Lemma count_remove_one (f : Request -> bool) (rq : Request) (l : list Request) :
  existsb (Request_eqb rq) l = true ->
  (count f (remove_one rq l) + (if f rq then 1 else 0) = count f l)%nat.
Proof.
  induction l as [|x l IH]; simpl; [discriminate|].
  intros H. destruct (Request_eqb x rq) eqn:E.
  - apply Request_eqb_eq in E. subst x. unfold count. simpl.
    destruct (f rq); simpl; lia.
  - destruct (Request_eqb rq x) eqn:E'.
    + apply Request_eqb_eq in E'. subst x. unfold Request_eqb in E.
      destruct (Request_eq_dec rq rq); [discriminate|contradiction].
    + simpl in H. specialize (IH H). unfold count in *. simpl.
      destruct (f x); simpl; lia.
Qed.

Lemma commit_no_query (prev : State) (fresh : bool) (c : State) :
  count is_query (snd (commit prev fresh c)) = 0%nat
  /\ isQuerying (fst (commit prev fresh c)) = isQuerying c.
Proof.
  unfold commit, tabEffect, fetchDocumentInfo, fetchSummary, fetchKeyPoints.
  guards; split; reflexivity.
Qed.

Lemma QueryPaired_step (w : World) (e : Event) :
  QueryPaired w -> enabled w e = true -> QueryPaired (fst (step w e)).
Proof.
  unfold QueryPaired. intros HP He.
  assert (Hc : forall c, isQuerying c = isQuerying (view w) ->
               forall fresh,
                 count is_query (inflight w ++ snd (commit (view w) fresh c)) =
                 if isQuerying (fst (commit (view w) fresh c)) then 1%nat else 0%nat).
  { intros c Hq fresh. destruct (commit_no_query (view w) fresh c) as [H1 H2].
    rewrite count_app, H1, H2, Hq, HP. lia. }
  destruct e as [id | k | t | q | | rq rp]; unfold step; cbn [react].
  - destruct (commit (view w) false (withDocumentId id (view w))) eqn:E.
    cbn [fst view inflight]. specialize (Hc (withDocumentId id (view w)) eq_refl false).
    rewrite E in Hc. exact Hc.
  - destruct (commit (view w) false (withApiKey k (view w))) eqn:E.
    cbn [fst view inflight]. specialize (Hc (withApiKey k (view w)) eq_refl false).
    rewrite E in Hc. exact Hc.
  - destruct (commit (view w) false (setActiveTab t (view w))) eqn:E.
    cbn [fst view inflight]. specialize (Hc (setActiveTab t (view w)) eq_refl false).
    rewrite E in Hc. exact Hc.
  - destruct (commit (view w) false (setQuery q (view w))) eqn:E.
    cbn [fst view inflight]. specialize (Hc (setQuery q (view w)) eq_refl false).
    rewrite E in Hc. exact Hc.
  - cbn [enabled] in He. apply andb_prop in He as [_ He].
    apply negb_true_iff in He. apply orb_false_iff in He as [Hq _].
    rewrite Hq in HP. unfold handleQuerySubmit.
    destruct (negb (JsText.truthy (trim (query (view w)))));
      [cbn [fst view inflight]; rewrite count_app, HP, Hq; reflexivity|].
    destruct (present (documentId (view w)));
      [|cbn [fst view inflight]; rewrite count_app, HP, Hq; reflexivity].
    destruct (negb (complete (documentInfo (view w))));
      cbn [fst view inflight]; rewrite count_app, HP; [rewrite Hq|];
      reflexivity.
  - cbn [enabled] in He. apply andb_prop in He as [Hin Ha].
    pose proof (count_remove_one is_query rq (inflight w) Hin) as Hr.
    destruct (settle rp (view w)) as [s1 fresh] eqn:Es.
    destruct (commit_no_query (view w) fresh s1) as [H1 H2].
    destruct (commit (view w) fresh s1) as [s2 rs] eqn:Ec.
    cbn [fst snd view inflight] in *. rewrite count_app, H1, H2.
    destruct rq as [i h | i m h | i m h | i h b];
      destruct rp as [r | r | r | r]; try discriminate Ha;
      cbn [settle] in Es; injection Es as <- <-; cbn [is_query] in Hr.
    + destruct r; cbn; cbn in HP, Hr; rewrite <- HP; lia.
    + destruct r; cbn; cbn in HP, Hr; rewrite <- HP; lia.
    + destruct r; cbn; cbn in HP, Hr; rewrite <- HP; lia.
    + assert (Hz : count is_query (remove_one (PostQuery i h b) (inflight w)) = 0%nat).
      { destruct (isQuerying (view w)); lia. }
      rewrite Hz. destruct r; reflexivity.
Qed.

(** X11.  In every session the viewer allows, at most one query is in
    flight, and [isQuerying] holds exactly while one is: the form takes
    no second submission before the first has settled. *)
Theorem one_query_in_flight :
  forall (id : option string) (key : string) (tr : list Event),
    possible id key tr = true ->
    (count is_query (inflight (fst (session id key tr))) <= 1)%nat
    /\ (isQuerying (view (fst (session id key tr))) = true <->
        count is_query (inflight (fst (session id key tr))) = 1%nat).
Proof.
  intros id key tr Hp.
  assert (H : QueryPaired (fst (session id key tr))).
  { assert (Hs : fst (session id key tr) = fst (run (fst (mount id key)) tr)).
    { unfold session. destruct (mount id key) as [w0 rs0]. cbn [fst].
      destruct (run w0 tr). reflexivity. }
    rewrite Hs.
    apply (machine_invariant _ _ _ step enabled QueryPaired QueryPaired_step);
      [|exact Hp].
    unfold QueryPaired, mount, fetchDocumentInfo, tabEffect. simpl.
    destruct (present id); reflexivity. }
  unfold QueryPaired in H. rewrite H.
  destruct (isQuerying (view (fst (session id key tr)))); split; try lia;
    split; intros H'; try reflexivity; discriminate.
Qed.

(** ** The text that is sent *)

Lemma trimStart_split (q : text) :
  exists pre : text, q = pre ++ trimStart q /\ forallb isWhiteSpace pre = true.
Proof.
  induction q as [|c q [pre [H1 H2]]]; [exists []; split; reflexivity|].
  simpl. destruct (isWhiteSpace c) eqn:E.
  - exists (c :: pre). simpl. rewrite E, H2, <- H1. split; reflexivity.
  - exists []. split; reflexivity.
Qed.

Lemma trimEnd_split (q : text) :
  exists post : text, q = trimEnd q ++ post /\ forallb isWhiteSpace post = true.
Proof.
  unfold trimEnd. destruct (trimStart_split (rev q)) as [pre [H1 H2]].
  exists (rev pre). split.
  - rewrite <- rev_app_distr, <- H1, rev_involutive. reflexivity.
  - rewrite forallb_rev. exact H2.
Qed.

Lemma trimEnd_trimmed (q : text) :
  match q with [] => True | c :: _ => isWhiteSpace c = false end ->
  trimmed (trimEnd q) /\ (q <> [] -> trimEnd q <> []).
Proof.
  intros Hq. destruct (trimEnd_split q) as [post [H1 H2]].
  unfold trimEnd in *. pose proof (trimStart_head (rev q)) as Hh.
  destruct (trimStart (rev q)) as [|d y] eqn:E.
  - simpl in *. split; [exact I|]. intros Hne. subst q.
    destruct post as [|c post]; [contradiction|].
    simpl in H2. rewrite Hq in H2. discriminate.
  - split; [|intros _; simpl; destruct (rev y); discriminate].
    simpl rev in *. unfold trimmed.
    destruct (rev y ++ [d]) as [|c r] eqn:Er; [exact I|].
    split.
    + rewrite H1 in Hq. exact Hq.
    + rewrite <- Er. rewrite last_last. exact Hh.
Qed.

Lemma react_query_body (s : State) (e : Event) (id : string)
      (h : list (string * string)) (body : text) :
  In (PostQuery id h body) (snd (react s e)) ->
  body = trim (query s) /\ body <> [].
Proof.
  intros Hin.
  assert (Hc : forall prev fresh c,
             In (PostQuery id h body) (snd (commit prev fresh c)) -> False).
  { intros prev fresh c H.
    destruct (commit_derived prev fresh c _ H eq_refl) as [_ [_ Hn]]. discriminate. }
  destruct e as [i | k | t | q | | rq rp];
    try (exfalso; eapply Hc; exact Hin).
  - revert Hin. cbn [react]. unfold handleQuerySubmit.
    destruct (trim (query s)) as [|c r] eqn:Et; simpl; [intros []|].
    destruct (present (documentId s)); simpl; [|intros []].
    destruct (complete (documentInfo s)); simpl; [|intros []].
    intros [H | []]. injection H as _ _ <-. split; [reflexivity|discriminate].
  - exfalso. rewrite react_settled in Hin. eapply Hc. exact Hin.
Qed.

(** X12.  The text of every query request is the typed text without its
    leading and its trailing white space: it is not empty, it neither
    begins nor ends with white space, and what was cut off on either
    side is white space only. *)
Theorem sent_query_is_the_trimmed_text :
  forall (s : State) (e : Event) (id : string)
         (h : list (string * string)) (body : text),
    In (PostQuery id h body) (snd (react s e)) ->
    body <> [] /\ trimmed body
    /\ exists pre post : text,
         query s = pre ++ body ++ post
         /\ forallb isWhiteSpace pre = true
         /\ forallb isWhiteSpace post = true.
Proof.
  intros s e id h body Hin.
  destruct (react_query_body s e id h body Hin) as [-> Hne].
  destruct (trimStart_split (query s)) as [pre [H1 H2]].
  destruct (trimEnd_split (trimStart (query s))) as [post [H3 H4]].
  destruct (trimEnd_trimmed (trimStart (query s)) (trimStart_head (query s)))
    as [Ht _].
  split; [exact Hne|]. split; [exact Ht|].
  exists pre, post. split; [|split; assumption].
  unfold trim. rewrite <- H3. exact H1.
Qed.

End ViewerMore.

(** * What is shown *)

Section Shown.
Import Http JsText DocumentViewer Format ViewerScreen.
Local Open Scope string_scope.
Local Open Scope Z_scope.

Lemma string_app_assoc (a b c : string) : ((a ++ b) ++ c = a ++ (b ++ c))%string.
Proof. induction a as [|x a IH]; simpl; [reflexivity|rewrite IH; reflexivity]. Qed.

Lemma formatFileSize_kilo (b : Z) :
  1024 <= b < 1048576 -> formatFileSize b = toFixed1 b 1024 ++ " KB".
Proof.
  intros H. unfold formatFileSize.
  destruct (Z.ltb_spec b 1024); [lia|].
  destruct (Z.ltb_spec b (1024 * 1024)); [reflexivity|lia].
Qed.

Lemma formatFileSize_mega (b : Z) :
  1048576 <= b -> formatFileSize b = toFixed1 b (1024 * 1024) ++ " MB".
Proof.
  intros H. unfold formatFileSize.
  destruct (Z.ltb_spec b 1024); [lia|].
  destruct (Z.ltb_spec b (1024 * 1024)); [lia|reflexivity].
Qed.

(** X13.  For an integer size of at least 1024 bytes and below 2^53
    (the sizes a double holds exactly), the figure printed is the size
    in units of 1024 bytes (below 1024 * 1024 bytes, with " KB") or of
    1024 * 1024 bytes (from there on, with " MB"), rounded to the
    nearest tenth, a tie going up: the printed tenths [n] are within
    half a tenth of the exact quotient. *)
Theorem formatFileSize_rounds_to_the_nearest_tenth :
  forall b : Z,
    1024 <= b < 9007199254740992 ->
    exists (n unit : Z) (name : string),
      (unit, name) = (if b <? 1048576 then (1024, " KB") else (1048576, " MB"))
      /\ formatFileSize b = decimal (n / 10) ++ "." ++ decimal (n mod 10) ++ name
      /\ 10 <= n
      /\ 10 * b - unit / 2 < unit * n <= 10 * b + unit / 2.
Proof.
  intros b [Hb _]. destruct (Z.ltb_spec b 1048576) as [Hlt | Hge].
  - exists (tenths b 1024), 1024, " KB". split; [reflexivity|].
    rewrite formatFileSize_kilo by lia. unfold toFixed1, tenths.
    split; [rewrite !string_app_assoc; reflexivity|].
    change (2 * 1024) with 2048. change (1024 / 2) with 512.
    Z.div_mod_to_equations. lia.
  - exists (tenths b (1024 * 1024)), 1048576, " MB". split; [reflexivity|].
    rewrite formatFileSize_mega by lia. unfold toFixed1, tenths.
    split; [rewrite !string_app_assoc; reflexivity|].
    change (2 * (1024 * 1024)) with 2097152. change (1024 * 1024) with 1048576.
    change (1048576 / 2) with 524288.
    Z.div_mod_to_equations. lia.
Qed.

(** X14.  From 0 up to 1023 bytes the size is printed in bytes, from
    "0 B" on; the last 51 sizes below 1024 * 1024 bytes are printed as
    "1024.0 KB", and "1.0 MB" starts at 1024 * 1024 bytes. *)
Theorem formatFileSize_at_the_unit_borders :
  forall b : Z,
    (0 <= b < 1024 -> formatFileSize b = decimal b ++ " B")
    /\ (1048525 <= b < 1048576 -> formatFileSize b = "1024.0 KB")
    /\ (1048576 <= b < 1101005 -> formatFileSize b = "1.0 MB").
Proof.
  intros b. split; [|split]; intros H.
  - unfold formatFileSize. destruct (Z.ltb_spec b 1024); [reflexivity|lia].
  - rewrite formatFileSize_kilo by lia. unfold toFixed1.
    replace (tenths b 1024) with 10240; [reflexivity|].
    unfold tenths. change (2 * 1024) with 2048. Z.div_mod_to_equations. lia.
  - rewrite formatFileSize_mega by lia. unfold toFixed1.
    replace (tenths b (1024 * 1024)) with 10; [reflexivity|].
    unfold tenths. change (2 * (1024 * 1024)) with 2097152.
    Z.div_mod_to_equations. lia.
Qed.

Lemma last_char_append (s t : string) :
  t <> "" -> last_char (s ++ t) = last_char t.
Proof.
  intros Ht. induction s as [|c s IH]; [reflexivity|].
  simpl. destruct (s ++ t) eqn:E; [|exact IH].
  destruct s; simpl in E; [contradiction|discriminate].
Qed.

Lemma formatFileSize_last (b : Z) : last_char (formatFileSize b) = Some "B"%char.
Proof.
  unfold formatFileSize.
  destruct (b <? 1024); [|destruct (b <? 1024 * 1024)];
    rewrite last_char_append by discriminate; reflexivity.
Qed.

(** X15.  The list prints the size of every document with
    [formatFileSize], an empty file as "0 B"; the viewer prints the same
    text except for an empty file, for which it prints "Unknown". *)
Theorem empty_file_size_is_shown_differently :
  forall (d : DocumentInfo.t) (doc : DocumentList.Document),
    (viewer_size_text (Some d) = formatFileSize (DocumentInfo.file_size d) <->
     DocumentInfo.file_size d <> 0)
    /\ (DocumentInfo.file_size d = 0 -> viewer_size_text (Some d) = "Unknown")
    /\ (DocumentList.file_size doc = 0 -> list_size_text doc = "0 B").
Proof.
  intros d doc. unfold viewer_size_text, list_size_text. split; [|split].
  - destruct (Z.eqb_spec (DocumentInfo.file_size d) 0) as [E | E].
    + split; [|contradiction]. intros H.
      apply (f_equal last_char) in H. rewrite formatFileSize_last in H.
      discriminate.
    + split; [intros _; exact E|reflexivity].
  - intros ->. reflexivity.
  - intros ->. reflexivity.
Qed.

Lemma click_query (s : State) :
  react s (ClickTab queryTab) = (setActiveTab queryTab s, []).
Proof.
  cbn [react]. unfold commit, same_props. simpl.
  rewrite option_string_eqb_refl, String.eqb_refl. simpl.
  unfold tabEffect. simpl.
  destruct (negb (Tab_eqb (activeTab s) queryTab)); [|reflexivity].
  destruct (complete (documentInfo s)); reflexivity.
Qed.

(** X16.  After a summary or key-points fetch fails, the tab panel shows
    the message instead of what is held, on the summary and on the
    key-points tab alike, while the summary and the key points held stay
    stored; and when the user then opens the query tab, the query form
    shows that same message. *)
Theorem failure_message_covers_every_tab :
  forall (s : State) (rq : Request) (rp : Reply) (t : Tab),
    complete (documentInfo s) = true ->
    tab_of_reply rp = Some t -> t <> queryTab -> reply_failed rp = true ->
    render (fst (react s (Settled rq rp))) =
      DocumentPage (documentInfo s)
        (Some (match activeTab s with
               | queryTab =>
                   QueryForm (isQuerying s) (Some (tab_error t))
                     (shown (queryResponse s)) false
               | _ => ErrorBox (tab_error t)
               end))
    /\ summary (fst (react s (Settled rq rp))) = summary s
    /\ keyPoints (fst (react s (Settled rq rp))) = keyPoints s
    /\ render (fst (react (fst (react s (Settled rq rp))) (ClickTab queryTab))) =
       DocumentPage (documentInfo s)
         (Some (QueryForm (isQuerying s) (Some (tab_error t))
                  (shown (queryResponse s)) false)).
Proof.
  intros s rq rp t Hc Ht Hq Hf.
  rewrite click_query, (react_settled_derived s rq rp t Ht). cbn [fst].
  destruct (documentInfo s) as [d|] eqn:Ed; [|discriminate].
  cbn [complete] in Hc.
  destruct rp as [r | r | r | r]; try discriminate; injection Ht as <-;
    try contradiction; destruct r; try discriminate;
    (split; [|split; [reflexivity|split; [reflexivity|]]]);
    unfold render, panel; simpl; rewrite Ed; simpl; rewrite Hc;
    try (destruct (activeTab s)); simpl; rewrite ?andb_false_r; reflexivity.
Qed.

(** The viewer mounted without an identifier, as long as the route stays. *)
Lemma waiting_step (w : World) (e : Event) :
  inflight w = [] -> documentInfo (view w) = None ->
  isLoading (view w) = true -> present (documentId (view w)) = None ->
  enabled w e = true -> stays [e] = true ->
  snd (step w e) = []
  /\ inflight (fst (step w e)) = []
  /\ documentInfo (view (fst (step w e))) = None
  /\ isLoading (view (fst (step w e))) = true
  /\ present (documentId (view (fst (step w e)))) = None.
Proof.
  intros Hf Hd Hl Hp He Hs.
  destruct e as [id | k | t | q | | rq rp]; try discriminate Hs.
  - unfold step. cbn [react]. unfold commit, tabEffect, fetchDocumentInfo.
    cbn [documentId documentInfo withApiKey]. rewrite Hp, Hd. cbn [complete].
    destruct (negb (same_props (view w) (withApiKey k (view w))));
      cbn; rewrite ?Tab_eqb_refl, Hf; cbn; repeat split; assumption.
  - cbn [enabled] in He. rewrite Hd in He. discriminate.
  - cbn [enabled] in He. rewrite Hd in He. discriminate.
  - cbn [enabled] in He. rewrite Hd in He. discriminate.
  - cbn [enabled] in He. rewrite Hf in He. discriminate.
Qed.

(** X17.  A viewer mounted without an identifier in the route (absent
    or empty) sends no request and shows the loading screen, and keeps
    doing so whatever happens, until the route changes. *)
Theorem no_identifier_loads_forever :
  forall (id : option string) (key : string) (tr : list Event),
    present id = None ->
    possible id key tr = true -> stays tr = true ->
    snd (session id key tr) = []
    /\ render (view (fst (session id key tr))) = LoadingScreen.
Proof.
  intros id key tr Hp Hposs Hs.
  assert (H0 : mount id key = ({| view := initial id key; inflight := [] |}, [])).
  { unfold mount, fetchDocumentInfo, tabEffect. simpl. rewrite Hp. reflexivity. }
  unfold possible in Hposs. unfold session. rewrite H0 in *. cbn [fst] in Hposs.
  assert (Hrun : forall tr w,
             inflight w = [] -> documentInfo (view w) = None ->
             isLoading (view w) = true -> present (documentId (view w)) = None ->
             feasible w tr = true -> stays tr = true ->
             snd (run w tr) = []
             /\ documentInfo (view (fst (run w tr))) = None
             /\ isLoading (view (fst (run w tr))) = true).
  { clear. induction tr as [|e tr IH]; intros w Hf Hd Hl Hp Hfe Hs;
      [repeat split; assumption|].
    unfold feasible in Hfe. rewrite machine_feasible_cons in Hfe.
    apply andb_prop in Hfe as [He Hfe].
    assert (Hs' : stays [e] && stays tr = true).
    { rewrite <- Hs. unfold stays. simpl. rewrite andb_true_r. reflexivity. }
    apply andb_prop in Hs' as [Hs1 Hs2].
    destruct (waiting_step w e Hf Hd Hl Hp He Hs1) as [Hr [Hf' [Hd' [Hl' Hp']]]].
    destruct (IH _ Hf' Hd' Hl' Hp' Hfe Hs2) as [Hr' [Hd'' Hl'']].
    unfold run. rewrite machine_run_cons. cbn [fst snd].
    fold (run (fst (step w e)) tr). rewrite Hr, Hr'. repeat split; assumption. }
  destruct (Hrun tr {| view := initial id key; inflight := [] |}
              eq_refl eq_refl eq_refl Hp Hposs Hs) as [Hr [Hd Hl]].
  destruct (run {| view := initial id key; inflight := [] |} tr) as [w rs].
  cbn [fst snd] in *. split; [exact Hr|].
  unfold render. rewrite Hl, Hd. reflexivity.
Qed.

End Shown.

(** * The upload page *)

Section UploadFacts.
Import Http DocumentUpload.
Local Open Scope string_scope.
Local Open Scope Z_scope.

Lemma allowed_iff (f : File) :
  existsb (String.eqb (type f)) allowedTypes = true <-> In (type f) allowedTypes.
Proof.
  rewrite existsb_exists. split.
  - intros [x [Hin He]]. apply String.eqb_eq in He. subst x. exact Hin.
  - intros Hin. exists (type f). split; [exact Hin|apply String.eqb_refl].
Qed.

Lemma too_big_iff (f : File) : (size f >? maxSize) = true <-> 16777216 < size f.
Proof. rewrite Z.gtb_ltb, Z.ltb_lt. reflexivity. Qed.

Lemma handleUpload_accepts (s : State) (f : File) :
  file s = Some f -> acceptable f ->
  handleUpload false s =
  (setError None (setIsUploading true s),
   [{| upload_file := f;
       upload_headers :=
         if Http.truthy (apiKey s) then [("X-API-Key", apiKey s)] else [] |}]).
Proof.
  intros Hf [Ht Hs]. unfold handleUpload. rewrite Hf.
  apply allowed_iff in Ht. rewrite Ht. cbn [negb].
  destruct (size f >? maxSize) eqn:E; [|reflexivity].
  apply too_big_iff in E. lia.
Qed.

(** X18.  The upload page sends a file exactly when one is selected,
    its type is one of the five allowed and its size is at most
    16 * 1024 * 1024 bytes (that size included), and nothing threw while
    the request was built; the request then carries that file, and the
    [X-API-Key] header exactly when a key is set.  When no file is
    selected, when the type is not allowed, or when the type is allowed
    and the size is above the limit, nothing is sent, [isUploading]
    stays as it was and the message names the first check that failed.
    When the file passes the checks and building the request throws,
    nothing is sent, [isUploading] is cleared and the message is
    "An error occurred during upload. Please try again.". *)
Theorem upload_is_sent_iff_acceptable :
  forall (s : State) (throws : bool) (rq : Request) (k : string),
    (snd (handleUpload false s) <> [] <->
     exists f, file s = Some f /\ acceptable f)
    /\ (In rq (snd (handleUpload throws s)) ->
        throws = false /\ file s = Some (upload_file rq)
        /\ acceptable (upload_file rq)
        /\ (In ("X-API-Key", k) (upload_headers rq) <->
            k = apiKey s /\ Http.truthy k = true))
    /\ (file s = None ->
        snd (handleUpload throws s) = []
        /\ isUploading (fst (handleUpload throws s)) = isUploading s
        /\ error (fst (handleUpload throws s)) =
           Some "Please select a file to upload")
    /\ (forall f, file s = Some f -> ~ In (type f) allowedTypes ->
        snd (handleUpload throws s) = []
        /\ isUploading (fst (handleUpload throws s)) = isUploading s
        /\ error (fst (handleUpload throws s)) =
           Some "Invalid file type. Please upload PDF, TXT, CSV, or Excel files.")
    /\ (forall f, file s = Some f -> In (type f) allowedTypes ->
        16777216 < size f ->
        snd (handleUpload throws s) = []
        /\ isUploading (fst (handleUpload throws s)) = isUploading s
        /\ error (fst (handleUpload throws s)) =
           Some "File size exceeds the 16MB limit.")
    /\ (forall f, file s = Some f -> acceptable f ->
        snd (handleUpload true s) = []
        /\ isUploading (fst (handleUpload true s)) = false
        /\ error (fst (handleUpload true s)) =
           Some "An error occurred during upload. Please try again.").
Proof.
  intros s throws rq k. split; [|split; [|split; [|split; [|split]]]].
  - split.
    + unfold handleUpload. destruct (file s) as [f|]; [|intros H; contradiction].
      destruct (existsb (String.eqb (type f)) allowedTypes) eqn:Et;
        cbn [negb]; [|intros H; contradiction].
      destruct (size f >? maxSize) eqn:Es; [intros H; contradiction|].
      intros _. exists f. split; [reflexivity|]. split.
      * apply allowed_iff. exact Et.
      * destruct (Z.le_gt_cases (size f) 16777216) as [H | H]; [exact H|].
        apply too_big_iff in H. congruence.
    + intros [f [Hf Ha]]. rewrite (handleUpload_accepts s f Hf Ha). discriminate.
  - unfold handleUpload. destruct (file s) as [f|]; [|intros []].
    destruct (existsb (String.eqb (type f)) allowedTypes) eqn:Et;
      cbn [negb]; [|intros []].
    destruct (size f >? maxSize) eqn:Es; [intros []|].
    destruct throws; [intros []|]. intros [H | []]. subst rq. cbn.
    split; [reflexivity|]. split; [reflexivity|]. split.
    + split; [apply allowed_iff; exact Et|].
      destruct (Z.le_gt_cases (size f) 16777216) as [H | H]; [exact H|].
      apply too_big_iff in H. congruence.
    + destruct (Http.truthy (apiKey s)) eqn:Ek; simpl; split.
      * intros [H | []]. injection H as <-. split; [reflexivity|exact Ek].
      * intros [-> _]. left. reflexivity.
      * intros [].
      * intros [-> H]. congruence.
  - intros Hf. unfold handleUpload. rewrite Hf. repeat split.
  - intros f Hf Ht. unfold handleUpload. rewrite Hf.
    destruct (existsb (String.eqb (type f)) allowedTypes) eqn:Et.
    + apply allowed_iff in Et. contradiction.
    + repeat split.
  - intros f Hf Ht Hs. unfold handleUpload. rewrite Hf.
    apply allowed_iff in Ht. rewrite Ht. cbn [negb].
    apply too_big_iff in Hs. rewrite Hs. repeat split.
  - intros f Hf [Ht Hs]. unfold handleUpload. rewrite Hf.
    apply allowed_iff in Ht. rewrite Ht. cbn [negb].
    destruct (size f >? maxSize) eqn:E; [apply too_big_iff in E; lia|].
    repeat split.
Qed.

(** X19.  What a finished upload leaves: [isUploading] is cleared and
    the selected file and the progress stay.  The page is left, for
    [/document/<id>], exactly when the status is a success and the body
    is an object; a success with an unreadable body neither leaves the
    page nor sets a message.  On any other status the message is the
    [detail] of the body when it has a non-empty one, and a fixed text
    otherwise; a request that never reached the server (status 0, no
    body) gives "Upload failed. Please try again.". *)
Theorem upload_outcome :
  forall (s : State) (status : Z) (body : Json),
    isUploading (fst (onDone status body s)) = false
    /\ file (fst (onDone status body s)) = file s
    /\ uploadProgress (fst (onDone status body s)) = uploadProgress s
    /\ (snd (onDone status body s) <> None <->
        (200 <= status < 300 /\ exists id d, body = JsonObject id d))
    /\ (200 <= status < 300 -> error (fst (onDone status body s)) = error s)
    /\ (~ 200 <= status < 300 ->
        (forall id d, body = JsonObject id (Some d) -> Http.truthy d = true ->
                      error (fst (onDone status body s)) = Some d)
        /\ (forall id, body = JsonObject id None \/ body = JsonObject id (Some "") ->
                       error (fst (onDone status body s)) = Some "Upload failed")
        /\ (body = JsonError \/ body = JsonNull ->
            error (fst (onDone status body s)) = Some "Upload failed. Please try again.")).
Proof.
  intros s status body. unfold onDone.
  destruct (Z.leb_spec 200 status) as [H1 | H1];
    destruct (Z.ltb_spec status 300) as [H2 | H2]; cbn [andb];
    destruct body as [| | [id|] [d|]]; cbn [fst snd];
    (split; [reflexivity|]); (split; [reflexivity|]); (split; [reflexivity|]);
    (split; [split;
             [intros H; try (exfalso; apply H; reflexivity);
              try (split; [lia|eexists; eexists; reflexivity])
             |intros [Hr [i [d' E]]]; try discriminate E; try lia; discriminate]|]);
    (split; [intros Hr; try reflexivity; lia|]);
    intros Hn; try (exfalso; apply Hn; lia);
    (split; [intros i d' E Ht; try discriminate E; injection E as _ <-;
             cbn [error setError]; rewrite Ht; reflexivity|]);
    (split; [intros i [E | E]; try discriminate E;
             try (injection E as _ ->); reflexivity
            |intros [E | E]; try discriminate E; reflexivity]).
Qed.

Lemma Paired_upload_step (w : World) (e : Event) :
  Paired w -> enabled w e = true -> Paired (fst (step w e)).
Proof.
  intros HP He. unfold enabled in He.
  destruct (navigated w) eqn:Hn; [discriminate|].
  destruct e as [fs | fs | k | throws | c v | status body]; cbn [step].
  - destruct HP as [[Hf Hu] | [rq [Hf [Hu _]]]]; [left | right; exists rq];
      cbn [fst view inflight navigated]; unfold handleFileChange;
      destruct fs; repeat split; assumption.
  - destruct HP as [[Hf Hu] | [rq [Hf [Hu _]]]]; [left | right; exists rq];
      cbn [fst view inflight navigated]; unfold handleDrop;
      destruct fs; repeat split; assumption.
  - destruct HP as [[Hf Hu] | [rq [Hf [Hu _]]]]; [left | right; exists rq];
      cbn [fst view inflight navigated]; repeat split; assumption.
  - destruct (file (view w)) as [f|] eqn:Hfile; [|discriminate].
    apply negb_true_iff in He.
    destruct HP as [[Hf Hu] | [rq [_ [Hu _]]]]; [|congruence].
    unfold handleUpload. rewrite Hfile.
    destruct (negb (existsb (String.eqb (type f)) allowedTypes));
      [left; split; [cbn; rewrite Hf; reflexivity|exact Hu]|].
    destruct (size f >? maxSize);
      [left; split; [cbn; rewrite Hf; reflexivity|exact Hu]|].
    destruct throws.
    + left. split; [cbn; rewrite Hf; reflexivity|reflexivity].
    + right. eexists. cbn. rewrite Hf. repeat split. exact Hn.
  - destruct HP as [[Hf Hu] | [rq [Hf [Hu _]]]]; [left | right; exists rq];
      cbn [fst view inflight navigated]; unfold onProgress;
      destruct c; repeat split; assumption.
  - destruct HP as [[Hf _] | [rq [Hf _]]]; [rewrite Hf in He; discriminate|].
    left. destruct (onDone status body (view w)) as [s' path] eqn:Ed.
    cbn [fst view inflight]. rewrite Hf. split; [reflexivity|].
    change s' with (fst (s', path)). rewrite <- Ed.
    unfold onDone. destruct ((200 <=? status) && (status <? 300));
      destruct body as [| | [i|] [d|]]; reflexivity.
Qed.

(** X20.  In every session the upload page allows, at most one upload
    is in flight, and [isUploading] holds exactly while one is: the
    button takes no second click before the first upload has finished. *)
Theorem one_upload_in_flight :
  forall (key : string) (tr : list Event),
    feasible (mount key) tr = true ->
    (List.length (inflight (fst (run (mount key) tr))) <= 1)%nat
    /\ (isUploading (view (fst (run (mount key) tr))) = true <->
        inflight (fst (run (mount key) tr)) <> []).
Proof.
  intros key tr Hf.
  assert (HP : Paired (fst (run (mount key) tr))).
  { apply (machine_invariant _ _ _ step enabled Paired Paired_upload_step);
      [|exact Hf]. left. split; reflexivity. }
  destruct HP as [[H1 H2] | [rq [H1 [H2 _]]]]; rewrite H1, H2; simpl;
    split; try lia; split; intros H; try discriminate; try reflexivity.
  exfalso. apply H. reflexivity.
Qed.

Lemma onDone_failure (s : State) (status : Z) (body : Json) :
  ~ 200 <= status < 300 ->
  snd (onDone status body s) = None
  /\ isUploading (fst (onDone status body s)) = false
  /\ file (fst (onDone status body s)) = file s.
Proof.
  intros Hs. unfold onDone.
  destruct (Z.leb_spec 200 status); destruct (Z.ltb_spec status 300);
    cbn [andb]; try (exfalso; apply Hs; lia);
    destruct body as [| | [i|] [d|]]; repeat split.
Qed.

(** X21.  After an upload that did not succeed, the file is still
    selected and the button is enabled again: a click sends the same
    file once more (while it is acceptable), with the key of that
    moment. *)
Theorem failed_upload_can_be_sent_again :
  forall (w : World) (f : File) (status : Z) (body : Json),
    navigated w = None -> file (view w) = Some f -> acceptable f ->
    ~ 200 <= status < 300 ->
    enabled (fst (step w (Done status body))) (ClickUpload false) = true
    /\ exists hdrs,
         snd (step (fst (step w (Done status body))) (ClickUpload false)) =
         [{| upload_file := f; upload_headers := hdrs |}].
Proof.
  intros w f status body Hn Hf Ha Hs.
  destruct (onDone_failure (view w) status body Hs) as [Hp [H1 H2]].
  cbn [step]. destruct (onDone status body (view w)) as [s' path] eqn:Ed.
  cbn [fst snd] in *. subst path. rewrite Hf in H2. split.
  - unfold enabled. cbn [navigated view]. rewrite H2, H1. reflexivity.
  - cbn [view]. rewrite (handleUpload_accepts s' f H2 Ha).
    eexists. reflexivity.
Qed.

End UploadFacts.

(** * The key and the storage *)

Section SettingsFacts.
Import Http Settings.
Local Open Scope string_scope.

Lemma getItem_removeItem (k k' : string) (st : Storage) :
  getItem k' (removeItem k st) = if String.eqb k' k then None else getItem k' st.
Proof.
  unfold getItem, removeItem. induction st as [|[a b] st IH]; simpl.
  - destruct (String.eqb k' k); reflexivity.
  - destruct (String.eqb a k) eqn:E; simpl.
    + rewrite IH. apply String.eqb_eq in E. subst a.
      destruct (String.eqb k' k) eqn:E'; [reflexivity|].
      rewrite String.eqb_sym in E'. rewrite E'. reflexivity.
    + destruct (String.eqb a k') eqn:E'; [|exact IH].
      apply String.eqb_eq in E'. subst a. rewrite E. reflexivity.
Qed.

Lemma getItem_setItem (k k' v : string) (st : Storage) :
  getItem k' (setItem k v st) = if String.eqb k' k then Some v else getItem k' st.
Proof.
  unfold setItem. unfold getItem at 1. simpl. rewrite String.eqb_sym.
  destruct (String.eqb k' k) eqn:E; [reflexivity|].
  fold (getItem k' (removeItem k st)). rewrite getItem_removeItem, E. reflexivity.
Qed.

Lemma getItem_persist (key k' : string) (st : Storage) :
  getItem k' (persist key st) =
  if String.eqb k' storage_key
  then (if Http.truthy key then Some key else None)
  else getItem k' st.
Proof.
  unfold persist. destruct (Http.truthy key).
  - apply getItem_setItem.
  - apply getItem_removeItem.
Qed.

Lemma Kept_step (st : Storage) (w : World) (e : Event) :
  Kept st w -> Kept st (step w e).
Proof.
  intros [H1 H2]. destruct e; cbn [step]; try (split; assumption).
  unfold Kept. cbn [apiKey storage].
  destruct (String.eqb (apiKey w) (apiKeyInput w)) eqn:E.
  - apply String.eqb_eq in E. rewrite <- E. split; assumption.
  - split.
    + rewrite getItem_persist, String.eqb_refl. reflexivity.
    + intros k Hk. rewrite getItem_persist.
      destruct (String.eqb k storage_key) eqn:E'; [|apply H2; exact Hk].
      apply String.eqb_eq in E'. contradiction.
Qed.

Lemma Kept_run (st : Storage) (tr : list Event) :
  forall w, Kept st w -> Kept st (run w tr).
Proof.
  unfold run. induction tr as [|e tr IH]; intros w H; [exact H|].
  simpl. apply IH. apply Kept_step. exact H.
Qed.

(** X22.  Whatever is done in the settings panel, the storage holds the
    key in effect: loading the key again from the storage, as a reload
    of the application does, gives the key in effect (the empty key is
    kept as no entry).  No other entry of the storage is ever changed. *)
Theorem key_survives_a_reload :
  forall (st : Storage) (tr : list Event) (k : string),
    loadKey (storage (run (mount st) tr)) = apiKey (run (mount st) tr)
    /\ (k <> storage_key ->
        getItem k (storage (run (mount st) tr)) = getItem k st).
Proof.
  intros st tr k.
  assert (H : Kept st (run (mount st) tr)).
  { apply Kept_run. split; cbn [mount apiKey storage].
    - rewrite getItem_persist, String.eqb_refl. reflexivity.
    - intros k' Hk. rewrite getItem_persist.
      destruct (String.eqb k' storage_key) eqn:E; [|reflexivity].
      apply String.eqb_eq in E. contradiction. }
  destruct H as [H1 H2]. split; [|apply H2].
  unfold loadKey. rewrite H1.
  destruct (Http.truthy (apiKey (run (mount st) tr))) eqn:E; [rewrite E; reflexivity|].
  destruct (apiKey (run (mount st) tr)); [reflexivity|discriminate].
Qed.

(** X23.  The key in effect and the storage change on Save only, to the
    text in the box as it is, untrimmed; Cancel closes the panel but
    keeps the text typed, so that opening the panel again and saving
    puts that text into effect. *)
Theorem key_changes_on_save_only :
  forall (w : World) (e : Event) (v : string),
    (e <> Save -> apiKey (step w e) = apiKey w /\ storage (step w e) = storage w)
    /\ apiKey (step w Save) = apiKeyInput w
    /\ apiKey (run w [TypeKey v; Cancel; ToggleSettings; Save]) = v
    /\ enabled (run w [TypeKey v; Cancel; ToggleSettings]) Save = true.
Proof.
  intros w e v. split; [|repeat split].
  intros H. destruct e; try (split; reflexivity). contradiction.
Qed.

End SettingsFacts.

(** * The further properties on the examples *)

Section MoreCases.
Import Http JsText.
Local Open Scope string_scope.

Lemma one_page_request_in_flight_witness :
  DocumentList.possible 2 "key-1" LoaderExamples.two_pages = true
  /\ (List.length
        (DocumentList.inflight
           (fst (DocumentList.session 2 "key-1" LoaderExamples.two_pages))) <= 1)%nat.
Proof.
  split; [reflexivity|].
  exact (proj1 (one_page_request_in_flight 2 "key-1" LoaderExamples.two_pages eq_refl)).
Defined.

Lemma exhausted_list_sends_nothing_witness :
  DocumentList.possible 2 "key-1"
    (LoaderExamples.two_pages ++ [DocumentList.ApiKeyChanged "key-2"])%list = true
  /\ DocumentList.hasMore
       (DocumentList.view
          (fst (DocumentList.session 2 "key-1" LoaderExamples.two_pages))) = false
  /\ snd (DocumentList.session 2 "key-1"
            (LoaderExamples.two_pages ++ [DocumentList.ApiKeyChanged "key-2"])%list) =
     snd (DocumentList.session 2 "key-1" LoaderExamples.two_pages).
Proof.
  split; [reflexivity|]. split; [reflexivity|].
  exact (proj1 (exhausted_list_sends_nothing 2 "key-1" LoaderExamples.two_pages
                  [DocumentList.ApiKeyChanged "key-2"] eq_refl eq_refl)).
Defined.

Lemma empty_first_page_is_a_dead_end_witness :
  DocumentList.possible 2 "key-1"
    [DocumentList.Settled 1 (HttpError 500 "Internal Server Error");
     DocumentList.ApiKeyChanged "key-2"] = true
  /\ snd (DocumentList.session 2 "key-1"
            [DocumentList.Settled 1 (HttpError 500 "Internal Server Error");
             DocumentList.ApiKeyChanged "key-2"]) =
     snd (DocumentList.mount 2 "key-1").
Proof.
  split; [reflexivity|].
  exact (proj1 (empty_first_page_is_a_dead_end 2 "key-1"
                  (HttpError 500 "Internal Server Error")
                  [DocumentList.ApiKeyChanged "key-2"]
                  (or_introl eq_refl) eq_refl)).
Defined.

Import DocumentViewer ViewerReadings ViewerScreen ViewerExamples MoreExamples.

Lemma viewer_requests_carry_the_key_witness :
  In (GetKeyPoints "doc-1" 10 keyed) (snd (react opened_view (ClickTab keyPointsTab)))
  /\ In ("X-API-Key", "key-1") (request_headers (GetKeyPoints "doc-1" 10 keyed)).
Proof.
  assert (Hin : In (GetKeyPoints "doc-1" 10 keyed)
                   (snd (react opened_view (ClickTab keyPointsTab))))
    by (left; reflexivity).
  split; [exact Hin|].
  apply (proj2 (viewer_requests_carry_the_key opened_view (ClickTab keyPointsTab)
                  (GetKeyPoints "doc-1" 10 keyed) "key-1" Hin)).
  split; reflexivity.
Defined.

Lemma metadata_is_never_polled_witness :
  In (GetDocument "doc-2" keyed) (snd (react opened_view (Navigate (Some "doc-2"))))
  /\ derived (GetDocument "doc-2" keyed) = false
  /\ ((exists id, Navigate (Some "doc-2") = Navigate id /\ id <> documentId opened_view)
      \/ (exists k, Navigate (Some "doc-2") = ApiKeyChanged k /\ k <> apiKey opened_view)).
Proof.
  assert (Hin : In (GetDocument "doc-2" keyed)
                   (snd (react opened_view (Navigate (Some "doc-2")))))
    by (left; reflexivity).
  split; [exact Hin|]. split; [reflexivity|].
  exact (metadata_is_never_polled opened_view (Navigate (Some "doc-2"))
           (GetDocument "doc-2" keyed) Hin eq_refl).
Defined.

Lemma route_change_refetches_witness :
  Some "doc-2" <> documentId opened_view
  /\ present (Some "doc-2") = Some "doc-2"
  /\ snd (react opened_view (Navigate (Some "doc-2"))) =
     [GetDocument "doc-2" keyed; GetSummary "doc-2" 1000 keyed].
Proof.
  assert (Hne : Some "doc-2" <> documentId opened_view) by discriminate.
  split; [exact Hne|]. split; [reflexivity|].
  exact (proj1 (route_change_refetches opened_view (Some "doc-2") "doc-2" Hne eq_refl)).
Defined.

Lemma successful_reply_touches_its_cell_only_witness :
  tab_of_reply (KeyPointsReply (HttpOk (keyPoints_of "doc-1"))) = Some keyPointsTab
  /\ reply_failed (KeyPointsReply (HttpOk (keyPoints_of "doc-1"))) = false
  /\ summary (fst (react opened_view
                     (Settled (GetKeyPoints "doc-1" 10 keyed)
                        (KeyPointsReply (HttpOk (keyPoints_of "doc-1"))))))
     = Some (summary_of "doc-1").
Proof.
  split; [reflexivity|]. split; [reflexivity|].
  exact (proj1 (successful_reply_touches_its_cell_only opened_view
                  (GetKeyPoints "doc-1" 10 keyed)
                  (KeyPointsReply (HttpOk (keyPoints_of "doc-1")))
                  keyPointsTab eq_refl eq_refl)).
Defined.

Lemma only_these_events_send_witness :
  snd (react opened_view (ClickTab keyPointsTab)) <> []
  /\ keyPointsTab <> activeTab opened_view.
Proof.
  assert (Hne : snd (react opened_view (ClickTab keyPointsTab)) <> [])
    by discriminate.
  split; [exact Hne|].
  exact (only_these_events_send opened_view (ClickTab keyPointsTab) Hne).
Defined.

Lemma one_query_in_flight_witness :
  possible (Some "doc-1") "key-1" asked = true
  /\ isQuerying (view (fst (session (Some "doc-1") "key-1" asked))) = true
  /\ count is_query (inflight (fst (session (Some "doc-1") "key-1" asked))) = 1%nat.
Proof.
  split; [reflexivity|]. split; [reflexivity|].
  apply (proj2 (one_query_in_flight (Some "doc-1") "key-1" asked eq_refl)).
  reflexivity.
Defined.

Lemma sent_query_is_the_trimmed_text_witness :
  In (PostQuery "doc-1" keyed [119; 104; 121; 63]%N)
     (snd (react asking_view SubmitQuery))
  /\ trimmed [119; 104; 121; 63]%N.
Proof.
  assert (Hin : In (PostQuery "doc-1" keyed [119; 104; 121; 63]%N)
                   (snd (react asking_view SubmitQuery)))
    by (left; reflexivity).
  split; [exact Hin|].
  exact (proj1 (proj2 (sent_query_is_the_trimmed_text asking_view SubmitQuery
                         "doc-1" keyed [119; 104; 121; 63]%N Hin))).
Defined.

Lemma failure_message_covers_every_tab_witness :
  complete (documentInfo opened_view) = true
  /\ reply_failed (SummaryReply (HttpError 500 "Internal Server Error")) = true
  /\ render (fst (react opened_view
                    (Settled (GetSummary "doc-1" 1000 keyed)
                       (SummaryReply (HttpError 500 "Internal Server Error")))))
     = DocumentPage (Some (info "doc-1" true))
         (Some (ErrorBox "Failed to load document summary.")).
Proof.
  assert (Hq : summaryTab <> queryTab) by discriminate.
  split; [reflexivity|]. split; [reflexivity|].
  exact (proj1 (failure_message_covers_every_tab opened_view
                  (GetSummary "doc-1" 1000 keyed)
                  (SummaryReply (HttpError 500 "Internal Server Error"))
                  summaryTab eq_refl eq_refl Hq eq_refl)).
Defined.

Lemma no_identifier_loads_forever_witness :
  present None = None
  /\ possible None "key-1" [ApiKeyChanged "key-2"; ApiKeyChanged "key-1"] = true
  /\ render (view (fst (session None "key-1"
                          [ApiKeyChanged "key-2"; ApiKeyChanged "key-1"])))
     = LoadingScreen.
Proof.
  split; [reflexivity|]. split; [reflexivity|].
  exact (proj2 (no_identifier_loads_forever None "key-1"
                  [ApiKeyChanged "key-2"; ApiKeyChanged "key-1"]
                  eq_refl eq_refl eq_refl)).
Defined.

Import Format.

Lemma formatFileSize_rounds_to_the_nearest_tenth_witness :
  (1024 <= 1587 < 9007199254740992)%Z
  /\ exists (n unit : Z) (name : string),
       (unit, name) = (1024%Z, " KB")
       /\ formatFileSize 1587 =
          decimal (n / 10) ++ "." ++ decimal (n mod 10) ++ name
       /\ (10 <= n)%Z
       /\ (10 * 1587 - unit / 2 < unit * n <= 10 * 1587 + unit / 2)%Z.
Proof.
  assert (H : (1024 <= 1587 < 9007199254740992)%Z) by lia.
  split; [exact H|].
  exact (formatFileSize_rounds_to_the_nearest_tenth 1587 H).
Defined.

Lemma formatFileSize_at_the_unit_borders_witness :
  (0 <= 1023 < 1024)%Z /\ formatFileSize 1023 = "1023 B"
  /\ (1048525 <= 1048575 < 1048576)%Z /\ formatFileSize 1048575 = "1024.0 KB"
  /\ (1048576 <= 1048576 < 1101005)%Z /\ formatFileSize 1048576 = "1.0 MB".
Proof.
  assert (H1 : (0 <= 1023 < 1024)%Z) by lia.
  assert (H2 : (1048525 <= 1048575 < 1048576)%Z) by lia.
  assert (H3 : (1048576 <= 1048576 < 1101005)%Z) by lia.
  split; [exact H1|].
  split; [exact (proj1 (formatFileSize_at_the_unit_borders 1023) H1)|].
  split; [exact H2|].
  split; [exact (proj1 (proj2 (formatFileSize_at_the_unit_borders 1048575)) H2)|].
  split; [exact H3|].
  exact (proj2 (proj2 (formatFileSize_at_the_unit_borders 1048576)) H3).
Defined.

Lemma empty_file_size_is_shown_differently_witness :
  DocumentInfo.file_size empty_info = 0%Z
  /\ viewer_size_text (Some empty_info) = "Unknown"
  /\ DocumentList.file_size empty_doc = 0%Z
  /\ list_size_text empty_doc = "0 B"
  /\ DocumentInfo.file_size (info "doc-1" true) <> 0%Z
  /\ viewer_size_text (Some (info "doc-1" true)) = "2.0 KB".
Proof.
  assert (Hne : DocumentInfo.file_size (info "doc-1" true) <> 0%Z) by discriminate.
  split; [reflexivity|].
  split; [exact (proj1 (proj2 (empty_file_size_is_shown_differently
                                 empty_info empty_doc)) eq_refl)|].
  split; [reflexivity|].
  split; [exact (proj2 (proj2 (empty_file_size_is_shown_differently
                                 empty_info empty_doc)) eq_refl)|].
  split; [exact Hne|].
  exact (proj2 (proj1 (empty_file_size_is_shown_differently
                         (info "doc-1" true) empty_doc)) Hne).
Defined.

Lemma upload_is_sent_iff_acceptable_witness :
  In {| DocumentUpload.upload_file := report;
        DocumentUpload.upload_headers := [("X-API-Key", "key-1")] |}
     (snd (DocumentUpload.handleUpload false chosen))
  /\ DocumentUpload.acceptable report
  /\ snd (DocumentUpload.handleUpload false chosen) <> []
  /\ DocumentUpload.file chosen = Some report
  /\ DocumentUpload.isUploading
       (fst (DocumentUpload.handleUpload true
               (DocumentUpload.setIsUploading true chosen))) = false
  /\ DocumentUpload.file (DocumentUpload.initial "key-1") = None
  /\ DocumentUpload.error
       (fst (DocumentUpload.handleUpload false (DocumentUpload.initial "key-1")))
     = Some "Please select a file to upload".
Proof.
  assert (Hin : In {| DocumentUpload.upload_file := report;
                      DocumentUpload.upload_headers := [("X-API-Key", "key-1")] |}
                   (snd (DocumentUpload.handleUpload false chosen)))
    by (left; reflexivity).
  pose proof (upload_is_sent_iff_acceptable chosen false
                {| DocumentUpload.upload_file := report;
                   DocumentUpload.upload_headers := [("X-API-Key", "key-1")] |}
                "key-1") as [Hiff [Hsent _]].
  pose proof (proj1 (proj2 (proj2 (Hsent Hin)))) as Ha.
  pose proof (upload_is_sent_iff_acceptable
                (DocumentUpload.setIsUploading true chosen) false
                {| DocumentUpload.upload_file := report;
                   DocumentUpload.upload_headers := [] |}
                "key-1") as [_ [_ [_ [_ [_ Hthrow]]]]].
  pose proof (upload_is_sent_iff_acceptable (DocumentUpload.initial "key-1") false
                {| DocumentUpload.upload_file := report;
                   DocumentUpload.upload_headers := [] |}
                "key-1") as [_ [_ [Hnone _]]].
  split; [exact Hin|]. split; [exact Ha|].
  split; [apply (proj2 Hiff); exists report; split; [reflexivity|exact Ha]|].
  split; [reflexivity|].
  split; [exact (proj1 (proj2 (Hthrow report eq_refl Ha)))|].
  split; [reflexivity|].
  exact (proj2 (proj2 (Hnone eq_refl))).
Defined.

Lemma upload_outcome_witness :
  ~ (200 <= 0 < 300)%Z
  /\ DocumentUpload.error
       (fst (DocumentUpload.onDone 0 DocumentUpload.JsonError chosen))
     = Some "Upload failed. Please try again."
  /\ (200 <= 201 < 300)%Z
  /\ snd (DocumentUpload.onDone 201
            (DocumentUpload.JsonObject (Some "doc-9") None) chosen) <> None.
Proof.
  assert (H0 : ~ (200 <= 0 < 300)%Z) by lia.
  assert (H1 : (200 <= 201 < 300)%Z) by lia.
  split; [exact H0|].
  split; [exact (proj2 (proj2 (proj2 (proj2 (proj2 (proj2 (proj2
                   (upload_outcome chosen 0 DocumentUpload.JsonError))))) H0))
                   (or_introl eq_refl))|].
  split; [exact H1|].
  apply (proj2 (proj1 (proj2 (proj2 (proj2
           (upload_outcome chosen 201
              (DocumentUpload.JsonObject (Some "doc-9") None))))))).
  split; [exact H1|]. exists (Some "doc-9"), None. reflexivity.
Defined.

Lemma one_upload_in_flight_witness :
  DocumentUpload.feasible (DocumentUpload.mount "key-1")
    [DocumentUpload.FileChosen [report]; DocumentUpload.ClickUpload false] = true
  /\ DocumentUpload.isUploading (DocumentUpload.view sending) = true
  /\ DocumentUpload.inflight sending <> [].
Proof.
  split; [reflexivity|]. split; [reflexivity|].
  apply (proj2 (one_upload_in_flight "key-1"
           [DocumentUpload.FileChosen [report]; DocumentUpload.ClickUpload false]
           eq_refl)).
  reflexivity.
Defined.

Lemma failed_upload_can_be_sent_again_witness :
  DocumentUpload.navigated sending = None
  /\ DocumentUpload.file (DocumentUpload.view sending) = Some report
  /\ ~ (200 <= 503 < 300)%Z
  /\ DocumentUpload.enabled
       (fst (DocumentUpload.step sending
               (DocumentUpload.Done 503 DocumentUpload.JsonError)))
       (DocumentUpload.ClickUpload false) = true.
Proof.
  assert (Ha : DocumentUpload.acceptable report).
  { split; [left; reflexivity|]. cbn. lia. }
  assert (Hs : ~ (200 <= 503 < 300)%Z) by lia.
  split; [reflexivity|]. split; [reflexivity|]. split; [exact Hs|].
  exact (proj1 (failed_upload_can_be_sent_again sending report 503
                  DocumentUpload.JsonError eq_refl eq_refl Ha Hs)).
Defined.

Lemma key_survives_a_reload_witness :
  "theme" <> Settings.storage_key
  /\ Settings.getItem "theme"
       (Settings.storage (Settings.run (Settings.mount some_storage) typed_and_saved))
     = Some "dark"
  /\ Settings.loadKey
       (Settings.storage (Settings.run (Settings.mount some_storage) typed_and_saved))
     = "key-1".
Proof.
  assert (Hne : "theme" <> Settings.storage_key) by discriminate.
  split; [exact Hne|].
  split; [exact (proj2 (key_survives_a_reload some_storage typed_and_saved "theme") Hne)|].
  exact (proj1 (key_survives_a_reload some_storage typed_and_saved "theme")).
Defined.

Lemma key_changes_on_save_only_witness :
  Settings.Cancel <> Settings.Save
  /\ Settings.apiKey
       (Settings.step
          (Settings.run (Settings.mount some_storage)
             [Settings.ToggleSettings; Settings.TypeKey "key-1"])
          Settings.Cancel)
     = Settings.apiKey
         (Settings.run (Settings.mount some_storage)
            [Settings.ToggleSettings; Settings.TypeKey "key-1"]).
Proof.
  assert (Hne : Settings.Cancel <> Settings.Save) by discriminate.
  split; [exact Hne|].
  exact (proj1 (proj1 (key_changes_on_save_only
                         (Settings.run (Settings.mount some_storage)
                            [Settings.ToggleSettings; Settings.TypeKey "key-1"])
                         Settings.Cancel "key-1") Hne)).
Defined.

End MoreCases.

(** * The one error cell *)

Section ErrorCell.
Import Http JsText DocumentViewer ViewerScreen ViewerMessages ViewerExamples.
Local Open Scope string_scope.

(** C7, against the claim as written: the summary fetch of "doc-1" fails
    and the user opens the query tab; the query tab, whose fetch did not
    fail, displays the message of the summary fetch. *)
Lemma summary_failure_shows_on_query_tab :
  ~ (forall (id : option string) (key : string) (tr tr' : list Event)
            (rq : Request) (rp : Reply) (t : Tab),
        possible id key (tr ++ Settled rq rp :: tr') = true ->
        tab_of_reply rp = Some t -> reply_failed rp = true ->
        complete (documentInfo
                    (view (fst (session id key (tr ++ Settled rq rp :: tr'))))) = true ->
        activeTab (view (fst (session id key (tr ++ Settled rq rp :: tr')))) <> t ->
        panel_message
          (panel (view (fst (session id key (tr ++ Settled rq rp :: tr')))))
        <> Some (tab_error t)).
Proof.
  intros H.
  apply (H (Some "doc-1") "key-1" summary_failed then_query_tab
           (GetSummary "doc-1" 1000 keyed)
           (SummaryReply (HttpError 500 "Internal Server Error"))
           summaryTab);
    try reflexivity.
  vm_compute. discriminate.
Qed.

(** C7, as the code has it.  When a summary, key-points or query fetch
    fails, the message set is the one of the operation that failed,
    "Failed to load document summary.", "Failed to load document key
    points." or "Failed to query the document."; the summary, the key
    points, the query answer and the metadata held stay as they are and
    nothing is sent.  The message goes to the one error cell of the
    viewer: the query tab displays it whichever fetch failed, every tab
    displays it while the viewer is not loading, and the start of the
    next summary or key-points fetch clears it. *)
Theorem failed_fetch_sets_the_shared_message :
  forall (s : State) (rq : Request) (rp : Reply) (t t' : Tab) (i : string),
    tab_of_reply rp = Some t -> reply_failed rp = true ->
    error (fst (react s (Settled rq rp))) =
      Some (match t with
            | summaryTab => "Failed to load document summary."
            | keyPointsTab => "Failed to load document key points."
            | queryTab => "Failed to query the document."
            end)
    /\ summary (fst (react s (Settled rq rp))) = summary s
    /\ keyPoints (fst (react s (Settled rq rp))) = keyPoints s
    /\ queryResponse (fst (react s (Settled rq rp))) = queryResponse s
    /\ documentInfo (fst (react s (Settled rq rp))) = documentInfo s
    /\ snd (react s (Settled rq rp)) = []
    /\ panel_message
         (panel (fst (react (fst (react s (Settled rq rp))) (ClickTab queryTab)))) =
       error (fst (react s (Settled rq rp)))
    /\ (isLoading (fst (react s (Settled rq rp))) = false ->
        panel_message (panel (fst (react s (Settled rq rp)))) =
        error (fst (react s (Settled rq rp))))
    /\ (present (documentId s) = Some i -> complete (documentInfo s) = true ->
        t' <> queryTab -> t' <> activeTab s ->
        error (fst (react (fst (react s (Settled rq rp))) (ClickTab t'))) = None).
Proof.
  intros s rq rp t t' i Ht Hf.
  rewrite click_query, (react_settled_derived s rq rp t Ht). cbn [fst snd].
  assert (Hclear : forall s1 : State,
             documentId s1 = documentId s -> apiKey s1 = apiKey s ->
             activeTab s1 = activeTab s -> documentInfo s1 = documentInfo s ->
             present (documentId s) = Some i -> complete (documentInfo s) = true ->
             t' <> queryTab -> t' <> activeTab s ->
             error (fst (react s1 (ClickTab t'))) = None).
  { intros s1 E1 E2 E3 E4 Hp Hc Hq Ha.
    cbn [react]. unfold commit, same_props.
    cbn [documentId apiKey activeTab setActiveTab].
    rewrite option_string_eqb_refl, String.eqb_refl. cbn [andb negb orb].
    destruct (Tab_eqb (activeTab s1) t') eqn:Et.
    - apply Tab_eqb_eq in Et. congruence.
    - cbn [negb]. unfold tabEffect, fetchSummary, fetchKeyPoints.
      cbn [documentId documentInfo apiKey activeTab setActiveTab].
      rewrite E1, E4, Hp, Hc. destruct t'; try contradiction; reflexivity. }
  destruct rp as [r | r | r | r]; try discriminate; injection Ht as <-;
    destruct r; try discriminate;
    (split; [reflexivity|]); (split; [reflexivity|]); (split; [reflexivity|]);
    (split; [reflexivity|]); (split; [reflexivity|]); (split; [reflexivity|]);
    (split; [reflexivity|]);
    (split; [|intros Hp Hc Hq Ha; apply Hclear; auto]);
    unfold panel; intros Hl; try rewrite Hl;
    destruct (activeTab _); try rewrite Hl; reflexivity.
Qed.

Lemma failed_fetch_sets_the_shared_message_witness :
  tab_of_reply (KeyPointsReply (HttpError 500 "Internal Server Error")) = Some keyPointsTab
  /\ reply_failed (KeyPointsReply (HttpError 500 "Internal Server Error")) = true
  /\ error (fst (react opened_view
                   (Settled (GetKeyPoints "doc-1" 10 keyed)
                      (KeyPointsReply (HttpError 500 "Internal Server Error")))))
     = Some "Failed to load document key points."
  /\ summary (fst (react opened_view
                     (Settled (GetKeyPoints "doc-1" 10 keyed)
                        (KeyPointsReply (HttpError 500 "Internal Server Error")))))
     = Some (summary_of "doc-1")
  /\ present (documentId opened_view) = Some "doc-1"
  /\ complete (documentInfo opened_view) = true
  /\ keyPointsTab <> queryTab /\ keyPointsTab <> activeTab opened_view
  /\ error (fst (react
                   (fst (react opened_view
                           (Settled (GetKeyPoints "doc-1" 10 keyed)
                              (KeyPointsReply (HttpError 500 "Internal Server Error")))))
                   (ClickTab keyPointsTab))) = None.
Proof.
  assert (Hq : keyPointsTab <> queryTab) by discriminate.
  assert (Ha : keyPointsTab <> activeTab opened_view) by discriminate.
  pose proof (failed_fetch_sets_the_shared_message opened_view
                (GetKeyPoints "doc-1" 10 keyed)
                (KeyPointsReply (HttpError 500 "Internal Server Error"))
                keyPointsTab keyPointsTab "doc-1" eq_refl eq_refl)
    as [He [Hs [_ [_ [_ [_ [_ [_ Hc]]]]]]]].
  split; [reflexivity|]. split; [reflexivity|]. split; [exact He|].
  split; [exact Hs|]. split; [reflexivity|]. split; [reflexivity|].
  split; [exact Hq|]. split; [exact Ha|].
  exact (Hc eq_refl eq_refl Hq Ha).
Defined.

End ErrorCell.
